(** * Amazon bestsellers scraper: the extraction engine of
      [scrape_bestsellers_updated.py], embedded and verified.

    The pure normalisers and the validation / deduplication pipeline are
    Rocq functions over Python strings (lists of code points) and Python
    dicts (finite maps from keys to values).  The code that drives the
    browser is written in a small state-and-exception monad over an
    abstract page handle whose every operation may raise; a run leaves
    a trace of the operations it performed.  Printing to the console
    and the clock are left out, and so are the two field extractors of
    lines 186-276, which nothing calls, the discovery of the
    categories, and the start of the browser and the JSON file of
    [main]: of [main] the loop over the categories is modelled, of
    [save_as_csv] the rows it writes. *)

From Stdlib Require Import NArith ZArith Lia List String Ascii.
From stdpp Require Import base option list gmap sets strings.

Open Scope N_scope.
Open Scope nat_scope.

(** ** Python strings *)

(** A [str] is a sequence of Unicode code points; [len], slicing and
    indexing count code points. *)
Abbreviation pystr := (list N).

Fixpoint str_of (s : string) : pystr :=
  match s with
  | EmptyString => []
  | String a s' => N_of_ascii a :: str_of s'
  end.

(** [str.isspace] on one code point: the white-space table of CPython
    (bidirectional classes WS, B, S and category Zs). *)
Definition isspace (c : N) : bool :=
  ((9 <=? c) && (c <=? 13) || (28 <=? c) && (c <=? 32) || (c =? 133)
   || (c =? 160) || (c =? 5760) || (8192 <=? c) && (c <=? 8202)
   || (c =? 8232) || (c =? 8233) || (c =? 8239) || (c =? 8287)
   || (c =? 12288))%N.

(** First code points of the runs of decimal digits (category Nd) that
    [\d] matches in a [str] pattern; Unicode 14.0, the database of
    CPython 3.11.  Each run has ten digits, the mathematical digits at
    120782 have fifty. *)
Definition decimal_runs : list (N * N) :=
  map (fun lo => (lo, 10%N))
    [48; 1632; 1776; 1984; 2406; 2534; 2662; 2790; 2918; 3046; 3174; 3302;
     3430; 3558; 3664; 3792; 3872; 4160; 4240; 6112; 6160; 6470; 6608; 6784;
     6800; 6992; 7088; 7232; 7248; 42528; 43216; 43264; 43472; 43504; 43600;
     44016; 65296; 66720; 68912; 69734; 69872; 69942; 70096; 70384; 70736;
     70864; 71248; 71360; 71472; 71904; 72016; 72784; 73040; 73120; 92768;
     92864; 93008; 123200; 123632; 125264; 130032]%N
  ++ [(120782, 50)]%N.

Definition isdecimal (c : N) : bool :=
  existsb (fun r => (fst r <=? c) && (c <? fst r + snd r))%N decimal_runs.

(** Truth value of a string: [if s] holds for the non-empty ones. *)
Definition nonempty (s : pystr) : bool :=
  match s with [] => false | _ :: _ => true end.

(** [s.startswith(p)]. *)
Fixpoint startswith (p s : pystr) : bool :=
  match p, s with
  | [], _ => true
  | _ :: _, [] => false
  | a :: p', b :: s' => (a =? b)%N && startswith p' s'
  end.

(** [p in s] for strings: [p] occurs as a substring of [s]. *)
Fixpoint contains (p s : pystr) : bool :=
  startswith p s || match s with [] => false | _ :: s' => contains p s' end.

(** The word in front of a list of words gets one more leading character. *)
Definition cons_first (c : N) (ws : list pystr) : list pystr :=
  match ws with
  | w :: ws' => (c :: w) :: ws'
  | [] => [[c]]
  end.

(** [s.split()]: the maximal runs of characters that are not white space. *)
Fixpoint split (s : pystr) : list pystr :=
  match s with
  | [] => []
  | c :: s' =>
      if isspace c then split s'
      else match s' with
           | [] => [[c]]
           | d :: _ => if isspace d then [c] :: split s'
                       else cons_first c (split s')
           end
  end.

(** [sep.join(ws)]. *)
Fixpoint join (sep : pystr) (ws : list pystr) : pystr :=
  match ws with
  | [] => []
  | [w] => w
  | w :: ws' => w ++ sep ++ join sep ws'
  end.

Fixpoint lstrip (s : pystr) : pystr :=
  match s with
  | [] => []
  | c :: s' => if isspace c then lstrip s' else s
  end.

Definition rstrip (s : pystr) : pystr := rev (lstrip (rev s)).

(** [s.strip()]. *)
Definition strip (s : pystr) : pystr := rstrip (lstrip s).

(** ** Values and dicts *)

(** The values the scraper stores in its product dicts: a string or
    [None] (an attribute that is not there). *)
Abbreviation pyval := (option pystr).

(** [if v], [not v]: [None] and the empty string are false. *)
Definition truthy (v : pyval) : bool :=
  match v with
  | Some (_ :: _) => true
  | _ => false
  end.

(** A product dict. *)
Abbreviation item := (gmap string pyval).

(** [d.get(k)] and [d.get(k, "")]. *)
Definition get (d : item) (k : string) : pyval := default None (d !! k).
Definition get_or_empty (d : item) (k : string) : pyval :=
  default (Some []) (d !! k).

(** ** Text normalisers (lines 85-178) *)

(** Every normaliser starts with [if not s: return ""]: [None] and the
    empty string give the empty string. *)
Definition clean_text (s : pyval) : pystr :=
  match s with
  | Some ((_ :: _) as t) => strip (join (str_of " ") (split t))
  | _ => []
  end.

(** [re.search(r"#?(\d+)", text)] tried at the start of [s]: the text
    of group 1.  The optional [#] is taken when it is there and given
    back when no digit follows it. *)
Fixpoint digits_prefix (s : pystr) : pystr :=
  match s with
  | c :: s' => if isdecimal c then c :: digits_prefix s' else []
  | [] => []
  end.

Definition one_or_more_digits (s : pystr) : option pystr :=
  match digits_prefix s with
  | [] => None
  | ds => Some ds
  end.

Definition rank_match_here (s : pystr) : option pystr :=
  match s with
  | c :: s' =>
      if (c =? 35)%N then
        match one_or_more_digits s' with
        | Some ds => Some ds
        | None => one_or_more_digits s
        end
      else one_or_more_digits s
  | [] => None
  end.

(** [re.search]: the match at the leftmost position that has one. *)
Fixpoint rank_search (s : pystr) : option pystr :=
  match rank_match_here s with
  | Some ds => Some ds
  | None => match s with
            | [] => None
            | _ :: s' => rank_search s'
            end
  end.

Definition clean_rank (rank_text : pyval) : pystr :=
  match rank_text with
  | Some ((_ :: _) as t) =>
      match rank_search t with
      | Some ds => str_of "#" ++ ds
      | None => []
      end
  | _ => []
  end.

Definition clean_product_name (name : pyval) : pystr :=
  match name with
  | Some (_ :: _) =>
      let cleaned := clean_text name in
      if 500 <? length cleaned then take 500 cleaned else cleaned
  | _ => []
  end.

Definition validate_product_link (link : pyval) : pystr :=
  match link with
  | Some ((_ :: _) as l) => if contains (str_of "/dp/") l then l else []
  | _ => []
  end.

Definition clean_rating (rating_text : pyval) : pystr :=
  match rating_text with
  | Some (_ :: _) => take 100 (clean_text rating_text)
  | _ => []
  end.

Definition clean_price (price_text : pyval) : pystr :=
  match price_text with
  | Some (_ :: _) => clean_text price_text
  | _ => []
  end.

(** ** Validation and deduplication (lines 103-139, 612-639) *)

(** The dict literal of lines 115-121. *)
Definition validated_item (it : item) : item :=
  <["rank" := Some (clean_rank (get_or_empty it "rank"))]>
  (<["name" := Some (clean_product_name (get_or_empty it "name"))]>
  (<["link" := Some (validate_product_link (get_or_empty it "link"))]>
  (<["rating" := Some (clean_rating (get_or_empty it "rating"))]>
  (<["price" := Some (clean_price (get_or_empty it "price"))]> ∅)))).

(** One turn of the first loop (lines 109-129): the dict that is
    appended to [validated_items], if any. *)
Definition validate_one (it : item) : option item :=
  if negb (truthy (get it "name")) || negb (truthy (get it "link")) then None
  else
    let v := validated_item it in
    if truthy (get v "name") && truthy (get v "link")
       && (10 <? length (default [] (get v "name")))
    then Some v else None.

(** The second loop (lines 132-137): first occurrence of each link.
    [item["link"]] cannot raise here, every dict of [validated_items]
    is the literal above. *)
Fixpoint unique_by_link (seen_links : gset pyval) (items : list item)
  : list item :=
  match items with
  | [] => []
  | it :: rest =>
      let link := get it "link" in
      if bool_decide (link ∉ seen_links)
      then it :: unique_by_link ({[link]} ∪ seen_links) rest
      else unique_by_link seen_links rest
  end.

Definition validate_and_clean_items (items : list item) : list item :=
  let validated_items := omap validate_one items in
  unique_by_link ∅ validated_items.

(** One turn of the loop of [deduplicate_products] (lines 620-637): the
    two sets after the turn and [dedup_key]. *)
Definition dedup_turn (it : item) (seen_links seen_asins : gset pyval)
  : gset pyval * gset pyval * pyval :=
  let link := get_or_empty it "link" in
  let asin := get_or_empty it "asin" in
  if truthy asin && bool_decide (asin ∉ seen_asins) then
    (seen_links, {[asin]} ∪ seen_asins,
     Some (str_of "asin:" ++ default [] asin))
  else if truthy link && bool_decide (link ∉ seen_links) then
    ({[link]} ∪ seen_links, seen_asins,
     Some (str_of "link:" ++ default [] link))
  else (seen_links, seen_asins, None).

(** [{k: v for k, v in item.items() if k != "asin"}]. *)
Definition clean_item (it : item) : item := delete "asin" it.

Fixpoint dedup_from (seen_links seen_asins : gset pyval) (items : list item)
  : list item :=
  match items with
  | [] => []
  | it :: rest =>
      let '(seen_links', seen_asins', dedup_key) :=
        dedup_turn it seen_links seen_asins in
      if truthy dedup_key
      then clean_item it :: dedup_from seen_links' seen_asins' rest
      else dedup_from seen_links' seen_asins' rest
  end.

Definition deduplicate_products (items : list item) : list item :=
  dedup_from ∅ ∅ items.

(** ** The page handle *)

(** The selectors the scraper queries. *)
Inductive selector : Set :=
| AsinContainers  (* elements with a non-empty data-asin attribute *)
| ProductLinks    (* a.a-link-normal whose href contains /dp/ *)
| RankBadge       (* .zg-bdg-text *)
| RatingLink      (* a whose aria-label contains: out of 5 *)
| PriceSpan       (* span._cDEzb_p13n-sc-price_3mJ9Z *)
| Pg2Link         (* a whose href contains pg=2 *)
| PgNextText      (* a whose href contains pg= and whose text has Next *)
| PgNextIcon.     (* .a-icon-next inside an a whose href contains pg= *)

(** A Playwright locator is a query, built without touching the page. *)
Inductive locator : Set :=
| Locator (sel : selector)              (* page.locator(sel) *)
| GetByText (text : string)             (* page.get_by_text(text) *)
| Sub (l : locator) (sel : selector)    (* l.locator(sel) *)
| Nth (l : locator) (i : nat)           (* l.nth(i) *)
| First (l : locator).                  (* l.first *)

Inductive load_state : Set := NetworkIdle | DomContentLoaded.

(** The operations that reach the browser. Each one may raise. *)
Inductive op : Set :=
| Goto (url : pystr) (timeout : Z)   (* wait_until is domcontentloaded *)
| Reload (timeout : Z)
| WaitForLoadState (st : load_state) (timeout : Z)
| WaitForTimeout (ms : Z)
| ScrollToBottom                     (* page.evaluate of window.scrollTo *)
| Url                                (* page.url *)
| Count (l : locator)
| GetAttribute (l : locator) (name : string)
| InnerText (l : locator)
| Click (l : locator) (timeout : Z).

(** What an operation returns. *)
Definition ret_of (o : op) : Set :=
  match o with
  | Url | InnerText _ => pystr
  | Count _ => nat
  | GetAttribute _ _ => pyval
  | _ => unit
  end.

(** An exception is known by its message, [str(e)]. *)
Inductive result (A : Type) : Type :=
| Ret (a : A)
| Raise (e : pystr).
Arguments Ret {A} a.
Arguments Raise {A} e.

(** What a run leaves behind, in order: the page operations with their
    outcomes, and the entries into the functions whose invocation the
    specification speaks of (the fallback extractor, the page-2
    navigation and its URL tactic). *)
Inductive event : Type :=
| Called (f : string)
| Did (o : op) (r : result (ret_of o)).

Definition BASE_URL : pystr := str_of "https://www.amazon.in".

(** [s.lower()] on A-Z.  The scraper only asks whether the lowered text
    contains [star]; no code point outside A-Z lowers to a string with
    one of these four letters, so that test is the one of [str.lower]. *)
Definition lower (s : pystr) : pystr :=
  map (fun c => if (65 <=? c) && (c <=? 90) then c + 32 else c)%N s.

Fixpoint skip (p : N -> bool) (s : pystr) : pystr :=
  match s with
  | c :: s' => if p c then skip p s' else s
  | [] => []
  end.

(** [re.search] of the pattern: start, digits, an optional dot, digits,
    then [out], [of] and [5] with optional white space before each.  No
    choice of the greedy quantifiers but the longest one can match, so
    the pattern is matched left to right. *)
Definition rating_phrase (s : pystr) : bool :=
  nonempty (digits_prefix s) &&
  let s1 := skip isdecimal s in
  let s2 := match s1 with
            | c :: t => if (c =? 46)%N then t else s1
            | [] => s1
            end in
  let s3 := skip isspace (skip isdecimal s2) in
  startswith (str_of "out") s3 &&
  let s4 := skip isspace (drop 3 s3) in
  startswith (str_of "of") s4 &&
  startswith (str_of "5") (skip isspace (drop 2 s4)).

(** [s.replace(old, new)] for a non-empty [old]; [n] characters of a
    replaced occurrence are still to be passed over. *)
Fixpoint replace_from (old new : pystr) (n : nat) (s : pystr) : pystr :=
  match s with
  | [] => []
  | c :: s' =>
      match n with
      | S n' => replace_from old new n' s'
      | O => if startswith old s
             then new ++ replace_from old new (length old - 1) s'
             else c :: replace_from old new 0 s'
      end
  end.

Definition replace (old new s : pystr) : pystr := replace_from old new 0 s.

(** The filter both extractors apply to the text and href of a link
    (lines 372-378 and 446-453). *)
Definition product_name_like (text : pystr) (href : pyval) : bool :=
  nonempty text && (15 <? length text) && truthy href
  && negb (rating_phrase text)
  && negb (contains (str_of "star") (lower text)).

(** A product dict as the extractors build it. *)
Definition product (rank name link rating price : pystr) : item :=
  <["rank" := Some rank]> (<["name" := Some name]> (<["link" := Some link]>
  (<["rating" := Some rating]> (<["price" := Some price]> ∅)))).

Record category : Type := { cat_name : pystr; cat_url : pystr }.

Record stats : Type := {
  error : option pystr;
  page1_items : nat;
  page2_items : nat;
  total_before_dedup : nat;
  final_unique_items : nat;
  initial_asin_count : option nat }.

Record CategoryResult : Type := {
  category_link : pystr;
  category_items : list item;
  extraction_stats : stats }.

(** How a loop turn ends: by falling through or [continue], or by
    [break] (or a [return] out of the loop). *)
Inductive flow (S : Type) : Type :=
| Next (s : S)
| Break (s : S).
Arguments Next {S} s.
Arguments Break {S} s.

Record state (W : Type) : Type := { world : W; trace : list event }.
Arguments world {W} s.
Arguments trace {W} s.
Arguments Build_state {W} world trace.

(** A computation against a browser of type [W]: it ends with a value
    or an exception and leaves a state behind. *)
Definition M (W A : Type) : Type := state W -> result A * state W.

Definition ret {W A} (a : A) : M W A := fun s => (Ret a, s).

Definition bind {W A B} (m : M W A) (k : A -> M W B) : M W B :=
  fun s => match m s with
           | (Ret a, s') => k a s'
           | (Raise e, s') => (Raise e, s')
           end.

(** [try: m  except ...: h]; both [except:] and [except Exception]
    catch whatever a page operation raises. *)
Definition try_except {W A} (m : M W A) (h : pystr -> M W A) : M W A :=
  fun s => match m s with
           | (Ret a, s') => (Ret a, s')
           | (Raise e, s') => h e s'
           end.

Definition lift {W A} (r : result A) : M W A := fun s => (r, s).

Definition called {W} (f : string) : M W unit :=
  fun s => (Ret tt, {| world := world s; trace := trace s ++ [Called f] |}).

Notation "x <- m ;; k" := (bind m (fun x => k))
  (at level 100, m at next level, right associativity).
Notation "m ;; k" := (bind m (fun _ => k))
  (at level 100, right associativity).

(** [for x in xs: body] over the loop's variables [s]. *)
Fixpoint for_each {W X S} (xs : list X) (body : X -> S -> M W (flow S))
  (s : S) : M W S :=
  match xs with
  | [] => ret s
  | x :: xs' =>
      f <- body x s;;
      match f with
      | Next s' => for_each xs' body s'
      | Break s' => ret s'
      end
  end.

Section Scraper.


(** The browser behind the page handle, of any type [W], and what each
    operation does to it: any outcome, any change. *)
Context {W : Type} (page_do : forall o : op, W -> result (ret_of o) * W).

(** [urllib.parse.urljoin]; it raises on a malformed reference. *)
Context (urljoin : pystr -> pystr -> result pystr).

Definition perform (o : op) : M W (ret_of o) :=
  fun s => let (r, w) := page_do o (world s) in
           (r, {| world := w; trace := trace s ++ [Did o r] |}).

(** *** Lazy-load convergence (lines 284-335) *)

Definition scroll_turn (pause_ms : Z) (scroll_num : nat) (v : nat * nat)
  : M W (flow (nat * nat)) :=
  let '(last_asin_count, stable_iterations) := v in
  perform ScrollToBottom;;
  perform (WaitForTimeout pause_ms);;
  current_asin_count <- perform (Count (Locator AsinContainers));;
  let v' := if last_asin_count <? current_asin_count
            then (current_asin_count, 0)
            else (last_asin_count, S stable_iterations) in
  if (2 <=? snd v') && (20 <=? current_asin_count) then ret (Break v')
  else
    (if (current_asin_count <? 10) && (3 <=? scroll_num)
     then perform (WaitForTimeout 2000) else ret tt);;
    ret (Next v').

Definition scroll_to_bottom_enhanced (max_scrolls : nat) (pause_ms : Z)
  : M W nat :=
  try_except (perform (WaitForLoadState NetworkIdle 8000))
    (fun _ => perform (WaitForLoadState DomContentLoaded 15000));;
  for_each (seq 0 max_scrolls) (scroll_turn pause_ms) (0, 0);;
  final_count <- perform (Count (Locator AsinContainers));;
  ret final_count.

(** *** The two extractors (lines 343-498) *)

(** The inner loop of lines 365-381 over the links of one container:
    the first link that looks like a product name. *)
Definition name_link_turn (link_elements : locator) (j : nat)
  (v : pystr * pystr) : M W (flow (pystr * pystr)) :=
  let link_elem := Nth link_elements j in
  text <- perform (InnerText link_elem);;
  let potential_name := clean_text (Some text) in
  href <- perform (GetAttribute link_elem "href");;
  if product_name_like potential_name href
  then link <- lift (urljoin BASE_URL (default [] href));;
       ret (Break (potential_name, link))
  else ret (Next v).

(** [elem = container.locator(sel).first], then the cleaned text of
    what [read] gets from it when [elem.count() > 0], else the empty
    string (lines 384-399). *)
Definition first_text (container : locator) (sel : selector)
  (read : locator -> M W pyval) : M W pystr :=
  let elem := First (Sub container sel) in
  n <- perform (Count elem);;
  if 0 <? n then v <- read elem;; ret (clean_text v) else ret [].

Definition inner_text (l : locator) : M W pyval :=
  t <- perform (InnerText l);; ret (Some t).

(** The body of the [try] of lines 353-412 for container [i]. *)
Definition container_turn (asin_containers : locator) (i : nat)
  (items : list item) : M W (list item) :=
  let container := Nth asin_containers i in
  asin <- perform (GetAttribute container "data-asin");;
  let link_elements := Sub container ProductLinks in
  n <- perform (Count link_elements);;
  v <- (if 0 <? n
        then m <- perform (Count link_elements);;
             for_each (seq 0 m) (name_link_turn link_elements) ([], [])
        else ret ([], []));;
  let '(name, link) := v in
  rank <- first_text container RankBadge inner_text;;
  rating <- first_text container RatingLink
              (fun e => perform (GetAttribute e "aria-label"));;
  price <- first_text container PriceSpan inner_text;;
  if nonempty name && nonempty link && (15 <? length name)
  then ret (items ++ [<["asin" := asin]> (product rank name link rating price)])
  else ret items.

Definition extract_from_asin_containers_universal (asin_containers : locator)
  : M W (list item) :=
  container_count <- perform (Count asin_containers);;
  for_each (seq 0 (min container_count 100))
    (fun i items =>
       try_except (items' <- container_turn asin_containers i items;;
                   ret (Next items'))
         (fun _ => ret (Next items)))
    [].

(** An entry of [valid_product_links]. *)
Record product_link : Type := {
  pl_element : locator;
  pl_name : pystr;
  pl_link : pystr;
  pl_index : nat }.

(** The body of the [try] of lines 440-461 for link [i]. *)
Definition valid_link_turn (product_links : locator) (i : nat)
  (valid : list product_link) : M W (list product_link) :=
  let link_elem := Nth product_links i in
  t <- perform (InnerText link_elem);;
  let text := clean_text (Some t) in
  href <- perform (GetAttribute link_elem "href");;
  if product_name_like text href
     && contains (str_of "/dp/") (default [] href)
  then link <- lift (urljoin BASE_URL (default [] href));;
       ret (valid ++ [{| pl_element := link_elem; pl_name := text;
                         pl_link := link; pl_index := i |}])
  else ret valid.

(** [coll.nth(idx)] read with [read] and cleaned when
    [coll.count() > idx], else the empty string (lines 471-483). *)
Definition nth_text (coll : locator) (idx : nat)
  (read : locator -> M W pyval) : M W pystr :=
  n <- perform (Count coll);;
  if idx <? n then v <- read (Nth coll idx);; ret (clean_text v) else ret [].

(** The body of the [try] of lines 469-493 for the product at [idx]. *)
Definition fallback_turn (idx : nat) (product_data : product_link)
  (items : list item) : M W (list item) :=
  rank <- nth_text (Locator RankBadge) idx inner_text;;
  price <- nth_text (Locator PriceSpan) idx inner_text;;
  rating <- nth_text (Locator RatingLink) idx
              (fun e => perform (GetAttribute e "aria-label"));;
  ret (items ++ [product rank (pl_name product_data) (pl_link product_data)
                   rating price]).

Fixpoint enumerate {X} (start : nat) (xs : list X) : list (nat * X) :=
  match xs with
  | [] => []
  | x :: xs' => (start, x) :: enumerate (S start) xs'
  end.

Definition extract_using_universal_selectors : M W (list item) :=
  called "extract_using_universal_selectors";;
  let product_links := Locator ProductLinks in
  link_count <- perform (Count product_links);;
  valid_product_links <-
    for_each (seq 0 link_count)
      (fun i valid =>
         try_except (valid' <- valid_link_turn product_links i valid;;
                     ret (Next valid'))
           (fun _ => ret (Next valid)))
      [];;
  for_each (enumerate 0 (take 50 valid_product_links))
    (fun p items =>
       try_except (items' <- fallback_turn (fst p) (snd p) items;;
                   ret (Next items'))
         (fun _ => ret (Next items)))
    [].

(** *** Per-page extraction (lines 501-535) *)

(** Lines 507-519: scroll, then the container method when there are
    at least ten containers. *)
Definition asin_method : M W (list item) :=
  final_container_count <- scroll_to_bottom_enhanced 8 2000;;
  let asin_containers := Locator AsinContainers in
  container_count <- perform (Count asin_containers);;
  if 10 <=? container_count
  then extract_from_asin_containers_universal asin_containers
  else ret [].

(** Lines 522-529: the fallback. *)
Definition with_fallback (items : list item) : M W (list item) :=
  if length items <? 15
  then fallback_items <- extract_using_universal_selectors;;
       if length items <? length fallback_items
       then ret fallback_items else ret items
  else ret items.

Definition extract_products_on_page : M W (list item) :=
  items <- asin_method;;
  items <- with_fallback items;;
  ret (validate_and_clean_items items).

(** *** Pagination (lines 543-609) *)

Definition navigate_by_url_modification : M W unit :=
  called "navigate_by_url_modification";;
  current_url <- perform Url;;
  let separator :=
    if contains (str_of "?") current_url then str_of "&" else str_of "?" in
  let appended := current_url ++ separator ++ str_of "pg=2" in
  let new_url :=
    if contains (str_of "pg=") current_url
    then let new_url := replace (str_of "pg=1") (str_of "pg=2") current_url in
         if bool_decide (new_url = current_url) then appended else new_url
    else appended in
  perform (Goto new_url 15000).

Definition navigation_strategies : list (M W unit) :=
  [ perform (Click (GetByText "Next page") 5000);
    perform (Click (First (Locator Pg2Link)) 5000);
    perform (Click (First (Locator PgNextText)) 5000);
    perform (Click (First (Locator PgNextIcon)) 5000);
    navigate_by_url_modification ].

(** The body of the [try] of lines 563-581; [true] is [return True]. *)
Definition navigation_turn (strategy : M W unit) : M W bool :=
  strategy;;
  perform (WaitForLoadState DomContentLoaded 10000);;
  current_url <- perform Url;;
  if contains (str_of "pg=2") current_url
     || contains (str_of "page=2") current_url
  then ret true
  else
    perform (WaitForTimeout 2000);;
    new_containers <- perform (Count (Locator AsinContainers));;
    ret (10 <=? new_containers).

Definition navigate_to_next_page : M W bool :=
  called "navigate_to_next_page";;
  for_each navigation_strategies
    (fun strategy (_ : bool) =>
       try_except (ok <- navigation_turn strategy;;
                   if ok then ret (Break true) else ret (Next false))
         (fun _ => ret (Next false)))
    false.

(** *** One category (lines 671-771) *)

(** Lines 683-703: load the category page and extract page 1. *)
Definition scrape_page1 (category_url : pystr) : M W (nat * list item) :=
  perform (Goto category_url 30000);;
  perform (WaitForTimeout 2000);;
  initial_asin_count <- perform (Count (Locator AsinContainers));;
  initial_asin_count <-
    (if initial_asin_count <? 5
     then perform (Reload 20000);;
          perform (WaitForTimeout 3000);;
          perform (Count (Locator AsinContainers))
     else ret initial_asin_count);;
  first_batch <- extract_products_on_page;;
  ret (initial_asin_count, first_batch).

(** Lines 706-728: page 2, when page 1 did well enough. *)
Definition scrape_page2 (first_batch : list item) : M W (list item) :=
  if 15 <=? length first_batch
  then ok <- navigate_to_next_page;;
       if ok
       then perform (WaitForTimeout 2000);; extract_products_on_page
       else ret []
  else ret [].

(** Lines 730-755. *)
Definition category_result (category_url : pystr) (initial_asin_count : nat)
  (first_batch second_batch : list item) : CategoryResult :=
  let all_items := first_batch ++ second_batch in
  let unique_items := deduplicate_products all_items in
  let final_items := take 100 unique_items in
  {| category_link := category_url;
     category_items := final_items;
     extraction_stats :=
       {| error := None;
          page1_items := length first_batch;
          page2_items := length second_batch;
          total_before_dedup := length all_items;
          final_unique_items := length final_items;
          initial_asin_count := Some initial_asin_count |} |}.

(** Lines 761-771. *)
Definition failed_result (category_url e : pystr) : CategoryResult :=
  {| category_link := category_url;
     category_items := [];
     extraction_stats :=
       {| error := Some e;
          page1_items := 0;
          page2_items := 0;
          total_before_dedup := 0;
          final_unique_items := 0;
          initial_asin_count := None |} |}.

(** The [try] block of [scrape_category]. *)
Definition scrape_category_try (category_url : pystr) : M W CategoryResult :=
  p <- scrape_page1 category_url;;
  second_batch <- scrape_page2 (snd p);;
  ret (category_result category_url (fst p) (snd p) second_batch).

Definition scrape_category (c : category) : M W CategoryResult :=
  let category_url := cat_url c in
  try_except (scrape_category_try category_url)
    (fun e => ret (failed_result category_url e)).

End Scraper.

(** ** Reading a run *)

(** The events a run from [s] to [s'] added. *)
Definition events_since {W} (s s' : state W) : list event :=
  drop (length (trace s)) (trace s').

(** Every event that [m] adds satisfies [P], from any state, whether
    [m] returns or raises. *)
Definition emits {W A} (P : event -> bool) (m : M W A) : Prop :=
  forall s, exists d, trace (snd (m s)) = trace s ++ d /\ forallb P d = true.

Definition is_fallback_call (e : event) : bool :=
  match e with
  | Called f => bool_decide (f = "extract_using_universal_selectors")
  | _ => false
  end.

(** A navigation tactic at work: a click, or an entry into the
    navigation functions. *)
Definition is_navigation (e : event) : bool :=
  match e with
  | Called f => bool_decide (f = "navigate_to_next_page")
                || bool_decide (f = "navigate_by_url_modification")
  | Did (Click _ _) _ => true
  | Did _ _ => false
  end.

Definition is_scroll (e : event) : bool :=
  match e with
  | Did ScrollToBottom _ => true
  | _ => false
  end.

(** The number of item containers an event measured, if it is a
    count of them that returned. *)
Definition measured (e : event) : option nat :=
  match e with
  | Did (Count (Locator AsinContainers)) (Ret n) => Some n
  | _ => None
  end.

Definition scrolls (d : list event) : nat := length (filter is_scroll d).
Definition measurements (d : list event) : list nat := omap measured d.

(** The stable identifier an event read off a container. *)
Definition asin_read (e : event) : option pyval :=
  match e with
  | Did (GetAttribute _ name) (Ret v) =>
      if bool_decide (name = "data-asin") then Some v else None
  | _ => None
  end.

(** The distinct stable identifiers the browser served during a run. *)
Definition asins_served (d : list event) : gset pyval :=
  list_to_set (omap asin_read d).







(** ** Two browsers to run the scraper on *)

(** A browser that has lost its page: every operation times out. *)
Definition broken_page (o : op) (w : unit) : result (ret_of o) * unit :=
  (Raise (str_of "Timeout exceeded"), w).

Definition broken_start : state unit := {| world := tt; trace := [] |}.




(** A bestsellers list of [per_page] products on each of two pages.
    The state of the browser is the page shown.  Every container holds
    a rank badge, a rating link and a price, and the first [linked]
    containers of a page hold the product's link; page-wide there is a
    link for every product.  The control with the text Next page leads
    to page 2, the other pagination links are not there.  With
    [overlap] page 2 lists the products of page 1 again, under links
    that differ in their tracking suffix. *)
Record shop : Type := { per_page : nat; linked : nat; overlap : bool }.

Definition shop_label (sh : shop) (page i : nat) : pystr :=
  [N.of_nat (64 + (if overlap sh then 1 else page)); N.of_nat (65 + i)].

Fixpoint shop_index (l : locator) : nat :=
  match l with
  | Nth (Locator _) i => i
  | Nth l' _ | First l' | Sub l' _ => shop_index l'
  | _ => 0
  end.

Fixpoint shop_selector (l : locator) : option selector :=
  match l with
  | Locator sel | Sub _ sel => Some sel
  | Nth l' _ | First l' => shop_selector l'
  | GetByText _ => None
  end.

Definition shop_count (sh : shop) (l : locator) : nat :=
  match l with
  | Locator Pg2Link | Locator PgNextText | Locator PgNextIcon => 0
  | Locator _ => per_page sh
  | Sub (Nth _ i) ProductLinks => if i <? linked sh then 1 else 0
  | _ => 1
  end.

Definition shop_text (sh : shop) (page : nat) (l : locator) : pystr :=
  match shop_selector l with
  | Some ProductLinks =>
      str_of "  Bestselling product " ++ shop_label sh page (shop_index l)
  | Some RankBadge => str_of "#" ++ [N.of_nat (49 + shop_index l mod 9)]
  | Some PriceSpan => 8377%N :: str_of "499.00"
  | _ => []
  end.

Definition shop_attribute (sh : shop) (page : nat) (l : locator)
  (name : string) : pyval :=
  if bool_decide (name = "data-asin")
  then Some (str_of "B0" ++ shop_label sh page (shop_index l))
  else if bool_decide (name = "href")
  then Some (str_of "/dp/B0" ++ shop_label sh page (shop_index l)
             ++ str_of "/ref=zg_bs_" ++ [N.of_nat (48 + page)])
  else if bool_decide (name = "aria-label")
  then Some (str_of "4.5 out of 5 stars")
  else None.

Definition shop_do (sh : shop) (o : op) (page : nat)
  : result (ret_of o) * nat :=
  match o as o' return result (ret_of o') * nat with
  | Goto _ _ => (Ret tt, 1)
  | Click (GetByText _) _ => (Ret tt, 2)
  | Click _ _ => (Raise (str_of "Timeout 5000ms exceeded"), page)
  | Url =>
      (Ret (str_of "https://www.amazon.in/gp/bestsellers/books"
            ++ (if page =? 2 then str_of "?pg=2" else [])), page)
  | Count l => (Ret (shop_count sh l), page)
  | GetAttribute l name => (Ret (shop_attribute sh page l name), page)
  | InnerText l => (Ret (shop_text sh page l), page)
  | Reload _ | WaitForLoadState _ _ | WaitForTimeout _ | ScrollToBottom =>
      (Ret tt, page)
  end.

(** Twenty products a page; twelve a page; twenty of which only eight
    containers hold their link; twenty that page 2 repeats. *)
Definition shop20 : shop := {| per_page := 20; linked := 20; overlap := false |}.
Definition shop8of20 : shop := {| per_page := 20; linked := 8; overlap := false |}.
Definition shop_twice : shop := {| per_page := 20; linked := 20; overlap := true |}.

(** Joining a path to a site root; enough of [urljoin] for the shop. *)
Definition shop_urljoin (base href : pystr) : result pystr :=
  Ret (base ++ href).

Definition shop_start : state nat := {| world := 0; trace := [] |}.

Definition books : category :=
  {| cat_name := str_of "Books";
     cat_url := str_of "https://www.amazon.in/gp/bestsellers/books" |}.

(** The value a run returned, [d] when it raised. *)
Definition returned {A} (d : A) (r : result A) : A :=
  match r with
  | Ret a => a
  | Raise _ => d
  end.

Definition is_ret {A} (r : result A) : bool :=
  match r with
  | Ret _ => true
  | Raise _ => false
  end.

(** ** Inputs for the examples *)

(** A name of 499 letters, a space and one more letter: 501 characters
    once cleaned. *)
Definition long_name : pystr := replicate 499 97%N ++ [32%N; 98%N].

(** The same with 99 letters: 101 characters once cleaned. *)
Definition long_rating : pystr := replicate 99 97%N ++ [32%N; 98%N].

(** Two candidates as the container extractor builds them, for one
    product (one data-asin) listed under two links that differ in
    their tracking suffix. *)
Definition twin_a : item :=
  <["asin" := Some (str_of "B0AAA")]>
    (product (str_of "#1") (str_of "Bestselling product A")
       (str_of "https://www.amazon.in/dp/B0AAA/ref=zg_bs_1")
       (str_of "4.5 out of 5 stars") (8377%N :: str_of "499.00")).

Definition twin_b : item :=
  <["asin" := Some (str_of "B0AAA")]>
    (product (str_of "#51") (str_of "Bestselling product A")
       (str_of "https://www.amazon.in/dp/B0AAA/ref=zg_bs_51")
       (str_of "4.5 out of 5 stars") (8377%N :: str_of "499.00")).

(** The keys of a validated item. *)
Definition five_fields : gset string :=
  {[ "rank"; "name"; "link"; "rating"; "price" ]}.

(** The invariant of a validated item: name and link are non-empty
    strings and the name has more than 10 characters. *)
Definition valid_item (it : item) : bool :=
  match it !! "name", it !! "link" with
  | Some (Some name), Some (Some link) =>
      nonempty name && nonempty link && (10 <? length name)
  | _, _ => false
  end.

(** ** What the claims speak of *)

(** Which items survive [deduplicate_products]: the truth of
    [dedup_key], turn by turn. *)
Fixpoint dedup_keeps (seen_links seen_asins : gset pyval) (items : list item)
  : list bool :=
  match items with
  | [] => []
  | it :: rest =>
      let '(seen_links', seen_asins', dedup_key) :=
        dedup_turn it seen_links seen_asins in
      truthy dedup_key :: dedup_keeps seen_links' seen_asins' rest
  end.

(** The item at position [i] of the merged list survives. *)
Definition survives (items : list item) (i : nat) : bool :=
  default false (dedup_keeps ∅ ∅ items !! i).

(** The elements of [xs] whose mark in [bs] is [true]. *)
Fixpoint select {A} (xs : list A) (bs : list bool) : list A :=
  match xs, bs with
  | x :: xs', b :: bs' => if b then x :: select xs' bs' else select xs' bs'
  | _, _ => []
  end.

(** The first run of digits of a text: skip what is no digit, then take
    digits while they last. *)
Definition first_digit_run (text : pystr) : pystr :=
  digits_prefix (skip (fun c => negb (isdecimal c)) text).

(** A word of [split]: not empty, no white space in it. *)
Definition is_word (w : pystr) : Prop :=
  w <> [] /\ Forall (fun c => isspace c = false) w.

(** A text that neither starts nor ends with white space. *)
Definition trimmed (s : pystr) : Prop :=
  (forall c, head s = Some c -> isspace c = false) /\
  (forall c, last s = Some c -> isspace c = false).

(** ** What the further properties speak of *)

(** A rank as [clean_rank] writes it: empty, or [#] and one or more
    decimal digits. *)
Definition rank_shaped (r : pystr) : bool :=
  match r with
  | [] => true
  | c :: ds => (c =? 35)%N && nonempty ds && forallb isdecimal ds
  end.

(** [item["link"]]. *)
Definition link_of (it : item) : pyval := get it "link".

(** A text whose only white space is U+0020. *)
Definition plain_spaces (s : pystr) : bool :=
  forallb (fun c => negb (isspace c) || (c =? 32)%N) s.

(** The five fields of an item as validation leaves them. *)
Definition well_formed (it : item) : bool :=
  match it !! "rank", it !! "name", it !! "link", it !! "rating",
        it !! "price" with
  | Some (Some rank), Some (Some name), Some (Some link), Some (Some rating),
    Some (Some price) =>
      rank_shaped rank
      && (10 <? length name) && (length name <=? 500) && plain_spaces name
      && contains (str_of "/dp/") link
      && (length rating <=? 100) && plain_spaces rating
      && plain_spaces price && bool_decide (clean_text (Some price) = price)
  | _, _, _, _, _ => false
  end.

(** The number [i+1] that line 564 prints for the navigation strategy
    an event starts, if it starts one. *)
Definition strategy_started (e : event) : option nat :=
  match e with
  | Did (Click (GetByText _) _) _ => Some 1
  | Did (Click (First (Locator Pg2Link)) _) _ => Some 2
  | Did (Click (First (Locator PgNextText)) _) _ => Some 3
  | Did (Click (First (Locator PgNextIcon)) _) _ => Some 4
  | Called f =>
      if bool_decide (f = "navigate_by_url_modification") then Some 5 else None
  | _ => None
  end.

(** The two confirmations of lines 572 and 579: the URL read names
    page 2, or at least ten containers were counted. *)
Definition confirms_page2 (e : event) : bool :=
  match e with
  | Did Url (Ret current_url) =>
      contains (str_of "pg=2") current_url
      || contains (str_of "page=2") current_url
  | Did (Count (Locator AsinContainers)) (Ret new_containers) =>
      10 <=? new_containers
  | _ => false
  end.

(** What a strategy of [navigation_strategies] leaves in the trace:
    the event that starts it, numbered [n], and no other start. *)
Definition starts {W} (n : nat) (strategy : M W unit) : Prop :=
  forall s, exists d0,
    trace (snd (strategy s)) = trace s ++ d0 /\
    omap strategy_started d0 = [n].

(** A text that [clean_text] leaves as it is. *)
Definition cleaned (s : pystr) : bool :=
  bool_decide (clean_text (Some s) = s).

(** What the filter of lines 372-378 asks of a name. *)
Definition name_like (text : pystr) : bool :=
  (15 <? length text) && negb (rating_phrase text)
  && negb (contains (str_of "star") (lower text)).

(** A candidate as an extractor builds it: the keys [fields], a name
    that passed the filter, and cleaned texts. *)
Definition candidate (fields : gset string) (it : item) : bool :=
  bool_decide (dom it = fields) &&
  match it !! "rank", it !! "name", it !! "link", it !! "rating",
        it !! "price" with
  | Some (Some rank), Some (Some name), Some (Some link), Some (Some rating),
    Some (Some price) =>
      cleaned rank && cleaned name && name_like name
      && cleaned rating && cleaned price
  | _, _, _, _, _ => false
  end.

Definition six_fields : gset string := {[ "asin" ]} ∪ five_fields.

(** A link that [urljoin] made of a non-empty [href] of the page. *)
Definition joined (urljoin : pystr -> pystr -> result pystr) (link : pystr)
  : Prop :=
  exists href, href <> [] /\ urljoin BASE_URL href = Ret link.

(** The page operations of [scrape_category] that no [try] but its own
    guards: loading the category (30 s), reloading it, the pauses, the
    fallback wait for the DOM, the scrolls, and the counts of the
    containers and of the product links. *)
Definition unguarded (o : op) : bool :=
  match o with
  | Goto _ timeout => (timeout =? 30000)%Z
  | Reload _ | WaitForTimeout _ | ScrollToBottom
  | WaitForLoadState DomContentLoaded _
  | Count (Locator AsinContainers) | Count (Locator ProductLinks) => true
  | _ => false
  end.

(** [m] only adds to the trace, and when it raises, what it raises is
    the exception of the page operation it did last, one that [P]
    allows. *)
Definition aborts_by {W A} (P : op -> bool) (m : M W A) : Prop :=
  forall s, exists d,
    trace (snd (m s)) = trace s ++ d /\
    forall e, fst (m s) = Raise e ->
              exists o, last d = Some (Did o (Raise e)) /\ P o = true.

(** ** The loop over the categories and the CSV rows *)

(** Of [main] the loop of lines 796-848 is modelled, over the
    categories that [get_categories] returned; of [save_as_csv] what
    it writes and returns. *)

(** A dict with string keys, in the order of insertion; [d[k] = v]
    replaces the value of a key that is there and keeps its place. *)
Fixpoint dict_set {V} (k : pystr) (v : V) (d : list (pystr * V))
  : list (pystr * V) :=
  match d with
  | [] => [(k, v)]
  | (k', v') :: d' =>
      if bool_decide (k' = k) then (k, v) :: d'
      else (k', v') :: dict_set k v d'
  end.

(** What the loop of [main] keeps: [result["bestsellers"]] and the
    three counters. *)
Record tally : Type := {
  bestsellers : list (pystr * CategoryResult);
  total_items : nat;
  successful_categories : nat;
  failed_categories : nat }.

(** Lines 806-817: the result is stored under the category's name and
    counted. *)
Definition record_category (cat : category) (data : CategoryResult)
  (t : tally) : tally :=
  let items_count := length (category_items data) in
  {| bestsellers := dict_set (cat_name cat) data (bestsellers t);
     total_items := total_items t + items_count;
     successful_categories :=
       if 0 <? items_count then S (successful_categories t)
       else successful_categories t;
     failed_categories :=
       if 0 <? items_count then failed_categories t
       else S (failed_categories t) |}.

(** Line 845. *)
Definition one_more_failure (t : tally) : tally :=
  {| bestsellers := bestsellers t;
     total_items := total_items t;
     successful_categories := successful_categories t;
     failed_categories := S (failed_categories t) |}.

(** A row of the CSV file. *)
Record csv_row : Type := {
  root_category : pystr;
  sub_category : pystr;
  row_category_link : pystr;
  row_rank : pyval;
  row_name : pyval;
  row_link : pyval;
  row_rating : pyval;
  row_price : pyval;
  row_page1_items : nat;
  row_page2_items : nat;
  row_final_unique_items : nat }.

(** Lines 34-56 of [save_as_csv]. *)
Definition csv_rows (bestsellers_data : list (pystr * CategoryResult))
  : list csv_row :=
  flat_map
    (fun entry =>
       let category_data := snd entry in
       let extraction_stats := extraction_stats category_data in
       map (fun it =>
              {| root_category := str_of "bestseller";
                 sub_category := fst entry;
                 row_category_link := category_link category_data;
                 row_rank := get_or_empty it "rank";
                 row_name := get_or_empty it "name";
                 row_link := get_or_empty it "link";
                 row_rating := get_or_empty it "rating";
                 row_price := get_or_empty it "price";
                 row_page1_items := page1_items extraction_stats;
                 row_page2_items := page2_items extraction_stats;
                 row_final_unique_items :=
                   final_unique_items extraction_stats |})
         (category_items category_data))
    bestsellers_data.

(** [save_as_csv]: the name of the file and the rows written to it
    under the header, or [None] when there is no row and no file; [ts]
    is the time of the clock as line 31 formats it. *)
Definition save_as_csv (ts : pystr)
  (bestsellers_data : list (pystr * CategoryResult)) (filename_prefix : pystr)
  : option (pystr * list csv_row) :=
  let csv_filename := filename_prefix ++ str_of "_" ++ ts ++ str_of ".csv" in
  match csv_rows bestsellers_data with
  | [] => None
  | csv_rows => Some (csv_filename, csv_rows)
  end.

Section Main.

Context {W : Type} (page_do : forall o : op, W -> result (ret_of o) * W).
Context (urljoin : pystr -> pystr -> result pystr).

(** Lines 93-95. *)
Definition polite_pause (ms : Z) : M W unit :=
  perform page_do (WaitForTimeout ms).

(** One turn of the loop of [main] (lines 801-848) without the clock
    and the prints.  What the [try] had stored and counted when the
    pause raises stays; the [except] counts a failure on top of it. *)
Definition category_turn (idx : nat) (cat : category) (t : tally)
  : M W tally :=
  try_except
    (data <- scrape_category page_do urljoin cat;;
     let t' := record_category cat data t in
     try_except
       (polite_pause (1500 + Z.of_nat (idx mod 3) * 300);; ret t')
       (fun _ => ret (one_more_failure t')))
    (fun _ => ret (one_more_failure t)).

(** Lines 796-848: [for idx, cat in enumerate(categories, start=1)]. *)
Definition main_loop (categories : list category) : M W tally :=
  for_each (enumerate 1 categories)
    (fun p t => t' <- category_turn (fst p) (snd p) t;; ret (Next t'))
    {| bestsellers := []; total_items := 0;
       successful_categories := 0; failed_categories := 0 |}.

End Main.

(** A pause of the loop of [main] that raised. *)
Definition pause_failed (e : event) : bool :=
  match e with
  | Did (WaitForTimeout ms) r =>
      ((ms =? 1500)%Z || (ms =? 1800)%Z || (ms =? 2100)%Z) && negb (is_ret r)
  | _ => false
  end.

(** The items a dict of results holds. *)
Definition items_held (d : list (pystr * CategoryResult)) : nat :=
  sum_list (map (fun entry => length (category_items (snd entry))) d).

(** ** Facts about the normalisers *)

Arguments isspace : simpl never.
Arguments isdecimal : simpl never.

Lemma rank_search_unfold (s : pystr) :
  rank_search s =
  match rank_match_here s with
  | Some ds => Some ds
  | None => match s with [] => None | _ :: s' => rank_search s' end
  end.
Proof. destruct s; reflexivity. Qed.

Lemma digits_prefix_skip (s : pystr) :
  digits_prefix s <> [] ->
  skip (fun c => negb (isdecimal c)) s = s.
Proof.
  destruct s as [|c s]; simpl; [done|].
  destruct (isdecimal c); simpl; done.
Qed.

Lemma isdecimal_hash (c : N) : (c =? 35)%N = true -> isdecimal c = false.
Proof. intros H%N.eqb_eq. subst c. reflexivity. Qed.

Lemma rank_search_first_run (s : pystr) :
  rank_search s = one_or_more_digits (skip (fun c => negb (isdecimal c)) s).
Proof.
  induction s as [|c s IH]; [reflexivity|].
  rewrite rank_search_unfold. unfold rank_match_here.
  destruct (c =? 35)%N eqn:Hc.
  - pose proof (isdecimal_hash c Hc) as Hd.
    assert (Hcs : one_or_more_digits (c :: s) = None).
    { unfold one_or_more_digits. simpl. by rewrite Hd. }
    rewrite Hcs. simpl skip. rewrite Hd. simpl negb. cbv iota.
    destruct (one_or_more_digits s) as [ds|] eqn:Hs.
    + unfold one_or_more_digits in Hs.
      rewrite digits_prefix_skip; [|by destruct (digits_prefix s)].
      unfold one_or_more_digits. by destruct (digits_prefix s).
    + exact IH.
  - simpl skip. destruct (isdecimal c) eqn:Hd; simpl negb; cbv iota.
    + unfold one_or_more_digits. simpl. by rewrite Hd.
    + assert (Hcs : one_or_more_digits (c :: s) = None).
      { unfold one_or_more_digits. simpl. by rewrite Hd. }
      rewrite Hcs. exact IH.
Qed.

Lemma clean_rank_spec (text : pystr) :
  clean_rank (Some text) =
  match first_digit_run text with
  | [] => []
  | ds => str_of "#" ++ ds
  end.
Proof.
  unfold clean_rank, first_digit_run.
  destruct text as [|c t]; [reflexivity|].
  rewrite rank_search_first_run. unfold one_or_more_digits.
  by destruct (digits_prefix _).
Qed.

(** *** Words, [split] and [join] *)

Lemma split_space (c : N) (s : pystr) :
  isspace c = true -> split (c :: s) = split s.
Proof. intros H. simpl. by rewrite H. Qed.

Lemma split_cons2 (a b : N) (s : pystr) :
  split (a :: b :: s) =
  if isspace a then split (b :: s)
  else if isspace b then [a] :: split (b :: s)
       else cons_first a (split (b :: s)).
Proof. reflexivity. Qed.

Lemma split_word_space (w : pystr) (c : N) (rest : pystr) :
  is_word w -> isspace c = true ->
  split (w ++ c :: rest) = w :: split rest.
Proof.
  intros [Hne Hw] Hc. induction w as [|a w IH]; [done|].
  apply Forall_cons in Hw as [Ha Hw].
  destruct w as [|b w].
  - simpl app. by rewrite split_cons2, Ha, Hc, (split_space c).
  - specialize (IH ltac:(done) Hw).
    apply Forall_cons in Hw as [Hb _].
    rewrite <- !app_comm_cons in *.
    rewrite split_cons2, Ha, Hb, IH. reflexivity.
Qed.

Lemma split_word (w : pystr) : is_word w -> split w = [w].
Proof.
  intros [Hne Hw]. induction w as [|a w IH]; [done|].
  apply Forall_cons in Hw as [Ha Hw].
  destruct w as [|b w].
  - simpl. by rewrite Ha.
  - specialize (IH ltac:(done) Hw).
    apply Forall_cons in Hw as [Hb _].
    rewrite split_cons2, Ha, Hb, IH. reflexivity.
Qed.

Lemma split_words (s : pystr) : Forall is_word (split s).
Proof.
  induction s as [|c s IH]; [constructor|].
  simpl. destruct (isspace c) eqn:Hc; [done|].
  destruct s as [|d s].
  - repeat constructor; [done|done].
  - destruct (isspace d) eqn:Hd.
    + constructor; [|done]. split; [done|]. by repeat constructor.
    + destruct (split (d :: s)) as [|w ws]; simpl.
      * repeat constructor; [done|done].
      * apply Forall_cons in IH as [[Hne Hw] Hws].
        constructor; [|done]. split; [done|]. by constructor.
Qed.

Lemma join_cons2 (sep w w2 : pystr) (ws : list pystr) :
  join sep (w :: w2 :: ws) = w ++ sep ++ join sep (w2 :: ws).
Proof. reflexivity. Qed.

Lemma split_join (ws : list pystr) :
  Forall is_word ws -> split (join [32%N] ws) = ws.
Proof.
  induction ws as [|w ws IH]; intros H; [reflexivity|].
  apply Forall_cons in H as [Hw Hws].
  destruct ws as [|w2 ws]; [by apply split_word|].
  rewrite join_cons2.
  change ([32%N] ++ join [32%N] (w2 :: ws)) with (32%N :: join [32%N] (w2 :: ws)).
  rewrite (split_word_space w 32%N); [|done|reflexivity].
  by rewrite IH.
Qed.

(** A space after the last word changes nothing for [split]. *)
Lemma split_join_space (ws : list pystr) :
  Forall is_word ws -> split (join [32%N] ws ++ [32%N]) = ws.
Proof.
  induction ws as [|w ws IH]; intros H; [reflexivity|].
  apply Forall_cons in H as [Hw Hws].
  destruct ws as [|w2 ws].
  - simpl join. by rewrite (split_word_space w 32%N []).
  - rewrite join_cons2, <- !app_assoc.
    change ([32%N] ++ join [32%N] (w2 :: ws) ++ [32%N])
      with (32%N :: (join [32%N] (w2 :: ws) ++ [32%N])).
    rewrite (split_word_space w 32%N); [|done|reflexivity].
    by rewrite IH.
Qed.

Lemma join_nil_inv (w : pystr) (ws : list pystr) :
  join [32%N] (w :: ws) = [] -> w = [].
Proof. destruct ws, w; simpl; done. Qed.

Lemma join_trimmed (ws : list pystr) :
  Forall is_word ws -> trimmed (join [32%N] ws).
Proof.
  intros H. split.
  - destruct H as [|w ws [Hne Hw] _]; [done|].
    destruct w as [|a w]; [done|]. apply Forall_cons in Hw as [Ha _].
    intros c. destruct ws; simpl; congruence.
  - induction H as [|w ws Hw Hws IH]; [done|].
    destruct ws as [|w2 ws].
    + intros c Hc. destruct Hw as [_ Hw].
      rewrite Forall_forall in Hw. apply Hw.
      by apply last_Some_elem_of.
    + intros c. rewrite join_cons2, !last_app.
      destruct (last (join [32%N] (w2 :: ws))) as [y|] eqn:Hl.
      * intros [= <-]. by apply IH.
      * apply last_None, join_nil_inv in Hl.
        apply Forall_cons in Hws as [[Hne _] _]. done.
Qed.

Lemma head_rev (s : pystr) : head (rev s) = last s.
Proof.
  induction s as [|c t _] using rev_ind; [done|].
  by rewrite rev_unit, last_snoc.
Qed.

Lemma lstrip_id (s : pystr) :
  (forall c, head s = Some c -> isspace c = false) -> lstrip s = s.
Proof.
  destruct s as [|c s]; [done|]. intros H. simpl. by rewrite (H c).
Qed.

Lemma strip_trimmed (s : pystr) : trimmed s -> strip s = s.
Proof.
  intros [Hh Hl]. unfold strip, rstrip.
  rewrite (lstrip_id s Hh), lstrip_id, rev_involutive; [done|].
  intros c. rewrite head_rev. apply Hl.
Qed.

(** What [clean_text] computes: the words of the text, one space
    between them. *)
Lemma clean_text_words (s : pyval) :
  clean_text s = join [32%N] (split (default [] s)).
Proof.
  destruct s as [[|c t]|]; [reflexivity| |reflexivity].
  unfold clean_text. apply strip_trimmed, join_trimmed, split_words.
Qed.

Lemma clean_text_join (ws : list pystr) :
  Forall is_word ws -> clean_text (Some (join [32%N] ws)) = join [32%N] ws.
Proof. intros H. rewrite clean_text_words. simpl. by rewrite split_join. Qed.

Lemma clean_text_join_space (ws : list pystr) :
  Forall is_word ws ->
  clean_text (Some (join [32%N] ws ++ [32%N])) = join [32%N] ws.
Proof.
  intros H. rewrite clean_text_words. simpl. by rewrite split_join_space.
Qed.

Lemma clean_text_idempotent (s : pyval) :
  clean_text (Some (clean_text s)) = clean_text s.
Proof.
  rewrite (clean_text_words s). apply clean_text_join, split_words.
Qed.

(** *** Truncation *)

Lemma is_word_take (n : nat) (w : pystr) :
  is_word w -> 0 < n -> is_word (take n w).
Proof.
  intros [Hne Hw] Hn. split.
  - destruct w, n; simpl; [done|done|lia|done].
  - by apply Forall_take.
Qed.

(** A prefix of a cleaned text is a cleaned text, or one followed by
    the separator that the cut fell behind. *)
Lemma take_join (ws : list pystr) (n : nat) :
  Forall is_word ws ->
  exists ws', Forall is_word ws' /\
    (take n (join [32%N] ws) = join [32%N] ws' \/
     ws' <> [] /\ take n (join [32%N] ws) = join [32%N] ws' ++ [32%N]).
Proof.
  intros H. revert n. induction H as [|w ws Hw Hws IH]; intros n.
  { exists []. split; [constructor|]. left. by destruct n. }
  destruct (decide (n = 0)) as [->|Hn0].
  { exists []. split; [constructor|]. by left. }
  assert (Hpre : Forall is_word [take n w]).
  { apply Forall_singleton, is_word_take; [done|lia]. }
  destruct ws as [|w2 ws].
  { exists [take n w]. split; [done|by left]. }
  rewrite join_cons2.
  destruct (decide (n <= length w)) as [Hle|Hgt].
  { exists [take n w]. split; [done|]. left. by rewrite take_app_le. }
  rewrite take_app_ge by lia.
  destruct (n - length w) as [|k] eqn:Hk; [lia|].
  change (take (S k) ([32%N] ++ join [32%N] (w2 :: ws)))
    with (32%N :: take k (join [32%N] (w2 :: ws))).
  destruct (IH k) as (ws' & Hws' & [Heq|[Hne Heq]]); rewrite Heq.
  - destruct ws' as [|w' ws'].
    + exists [w]. split; [by apply Forall_singleton|]. by right.
    + exists (w :: w' :: ws'). split; [by constructor|]. by left.
  - destruct ws' as [|w' ws']; [done|].
    exists (w :: w' :: ws'). split; [by constructor|]. right.
    split; [done|]. rewrite join_cons2. by rewrite <- !app_assoc.
Qed.

(** Cleaning a prefix of a cleaned text gives it back exactly when the
    prefix does not end with a space. *)
Lemma clean_text_take (n : nat) (s : pyval) :
  let p := take n (clean_text s) in
  length (clean_text (Some p)) <= length p /\
  (clean_text (Some p) = p <-> last p <> Some 32%N).
Proof.
  intros p. subst p. rewrite (clean_text_words s).
  destruct (take_join (split (default [] s)) n (split_words _))
    as (ws' & Hws' & [Heq|[Hne Heq]]); rewrite Heq.
  - rewrite clean_text_join by done. split; [done|]. split; [|done].
    intros _ Hl. by apply (join_trimmed ws' Hws') in Hl.
  - rewrite clean_text_join_space by done. split.
    + rewrite length_app. lia.
    + rewrite last_snoc. split; [|done].
      intros Habs. apply (f_equal length) in Habs.
      rewrite length_app in Habs. simpl in Habs. lia.
Qed.

Lemma clean_product_name_take (s : pyval) :
  clean_product_name s = take 500 (clean_text s).
Proof.
  destruct s as [[|c t]|]; [reflexivity| |reflexivity].
  unfold clean_product_name.
  destruct (500 <? length _) eqn:Hlen; [done|].
  apply Nat.ltb_ge in Hlen. by rewrite take_ge.
Qed.

Lemma clean_rating_take (s : pyval) :
  clean_rating s = take 100 (clean_text s).
Proof. by destruct s as [[|c t]|]. Qed.

Lemma clean_take_fixed (n : nat) (s : pyval) :
  let p := take n (clean_text s) in
  take n (clean_text (Some p)) = p <-> last p <> Some 32%N.
Proof.
  intros p. destruct (clean_text_take n s) as [Hlen Hiff]. fold p in Hlen, Hiff.
  assert (Hp : length p <= n) by (subst p; rewrite length_take; lia).
  rewrite take_ge by lia. exact Hiff.
Qed.

(** ** Runs *)

Lemma bind_Ret {W A B} (m : M W A) (k : A -> M W B) s a s1 :
  m s = (Ret a, s1) -> bind m k s = k a s1.
Proof. intros H. unfold bind. by rewrite H. Qed.

Lemma bind_Raise {W A B} (m : M W A) (k : A -> M W B) s e s1 :
  m s = (Raise e, s1) -> bind m k s = (Raise e, s1).
Proof. intros H. unfold bind. by rewrite H. Qed.

Lemma bind_Ret_inv {W A B} (m : M W A) (k : A -> M W B) s b s' :
  bind m k s = (Ret b, s') ->
  exists a s1, m s = (Ret a, s1) /\ k a s1 = (Ret b, s').
Proof.
  unfold bind. destruct (m s) as [[a|e] s1]; [|done]. intros H. by exists a, s1.
Qed.

Lemma run_returned {W A} (d : A) (r : result A * state W) :
  is_ret (fst r) = true -> r = (Ret (returned d (fst r)), snd r).
Proof. by destruct r as [[a|e] s]. Qed.

Lemma events_since_app {W} (s s' : state W) d :
  trace s' = trace s ++ d -> events_since s s' = d.
Proof. intros H. unfold events_since. by rewrite H, drop_app_length. Qed.

Lemma emits_weaken {W A} (P Q : event -> bool) (m : M W A) :
  (forall e, P e = true -> Q e = true) -> emits P m -> emits Q m.
Proof.
  intros HPQ Hm s. destruct (Hm s) as (d & Hd & HP). exists d. split; [done|].
  rewrite forallb_forall in *. auto.
Qed.

Lemma emits_ret {W A} P (a : A) : emits P (@ret W A a).
Proof. intros s. exists []. by rewrite app_nil_r. Qed.

Lemma emits_lift {W A} P (r : result A) : emits P (@lift W A r).
Proof. intros s. exists []. by rewrite app_nil_r. Qed.

Lemma emits_called {W} (P : event -> bool) f :
  P (Called f) = true -> emits P (@called W f).
Proof. intros H s. exists [Called f]. simpl. by rewrite H. Qed.

Lemma emits_bind {W A B} P (m : M W A) (k : A -> M W B) :
  emits P m -> (forall a, emits P (k a)) -> emits P (bind m k).
Proof.
  intros Hm Hk s. unfold bind. destruct (Hm s) as (d1 & H1 & F1).
  destruct (m s) as [[a|e] s1]; simpl in *; [|by exists d1].
  destruct (Hk a s1) as (d2 & H2 & F2). exists (d1 ++ d2).
  by rewrite H2, H1, app_assoc, forallb_app, F1, F2.
Qed.

Lemma emits_try_except {W A} P (m : M W A) (h : pystr -> M W A) :
  emits P m -> (forall e, emits P (h e)) -> emits P (try_except m h).
Proof.
  intros Hm Hh s. unfold try_except. destruct (Hm s) as (d1 & H1 & F1).
  destruct (m s) as [[a|e] s1]; simpl in *; [by exists d1|].
  destruct (Hh e s1) as (d2 & H2 & F2). exists (d1 ++ d2).
  by rewrite H2, H1, app_assoc, forallb_app, F1, F2.
Qed.

Lemma emits_for_each {W X S} P (xs : list X) (body : X -> S -> M W (flow S)) :
  (forall x v, emits P (body x v)) -> forall v, emits P (for_each xs body v).
Proof.
  intros Hb. induction xs as [|x xs IH]; intros v; simpl.
  - apply emits_ret.
  - apply emits_bind; [apply Hb|]. intros [v'|v']; [apply IH|apply emits_ret].
Qed.

Section Runs.

Context {W : Type} (page_do : forall o : op, W -> result (ret_of o) * W).
Context (urljoin : pystr -> pystr -> result pystr).

Lemma perform_run (o : op) (s : state W) :
  perform page_do o s =
  (fst (page_do o (world s)),
   {| world := snd (page_do o (world s));
      trace := trace s ++ [Did o (fst (page_do o (world s)))] |}).
Proof. unfold perform. by destruct (page_do o (world s)). Qed.

Lemma emits_perform (P : event -> bool) (o : op) :
  (forall r, P (Did o r) = true) -> emits P (perform page_do o).
Proof.
  intros H s. rewrite perform_run. simpl. eexists. split; [done|].
  simpl. by rewrite H.
Qed.

End Runs.

Create HintDb scraper.
#[global] Hint Unfold scroll_to_bottom_enhanced scroll_turn name_link_turn
  first_text inner_text container_turn extract_from_asin_containers_universal
  valid_link_turn nth_text fallback_turn extract_using_universal_selectors
  asin_method with_fallback extract_products_on_page
  navigate_by_url_modification navigation_strategies navigation_turn
  navigate_to_next_page scrape_page1 scrape_page2 scrape_category_try
  scrape_category : scraper.

(** One step towards [emits P m], by the shape of [m]. *)
Ltac emits_step :=
  lazymatch goal with
  | |- emits _ (ret _) => apply emits_ret
  | |- emits _ (lift _) => apply emits_lift
  | |- emits _ (called _) => apply emits_called; reflexivity
  | |- @emits ?W _ ?P (perform ?page_do ?o) =>
      change (@emits W (ret_of o) P (perform page_do o));
      apply emits_perform; intros; reflexivity
  | |- emits _ (bind _ _) => apply emits_bind; [|intros]
  | |- emits _ (try_except _ _) => apply emits_try_except; [|intros]
  | |- emits _ (for_each ?xs _ _) =>
      lazymatch xs with
      | context [navigation_strategies] =>
          unfold navigation_strategies; cbn [for_each]
      | _ => apply emits_for_each; intros
      end
  | |- emits _ (if ?b then _ else _) => destruct b
  | |- emits _ (match ?x with _ => _ end) => destruct x
  | |- emits _ _ => progress (autounfold with scraper; cbv beta)
  end.

Ltac emits_auto := repeat emits_step.

Section Alphabets.

Context {W : Type} (page_do : forall o : op, W -> result (ret_of o) * W).
Context (urljoin : pystr -> pystr -> result pystr).

Lemma scroll_emits max_scrolls pause_ms :
  emits (fun e => negb (is_navigation e) && negb (is_fallback_call e))
    (scroll_to_bottom_enhanced page_do max_scrolls pause_ms).
Proof. emits_auto. Qed.

Lemma asin_method_emits :
  emits (fun e => negb (is_navigation e) && negb (is_fallback_call e))
    (asin_method page_do urljoin).
Proof. emits_auto. Qed.

Lemma extract_products_on_page_emits :
  emits (fun e => negb (is_navigation e))
    (extract_products_on_page page_do urljoin).
Proof. emits_auto. Qed.


End Alphabets.

(** ** The scroll loop *)










Section Scroll.

Context {W : Type} (page_do : forall o : op, W -> result (ret_of o) * W).

Lemma bind_perform {B} (o : op) (k : ret_of o -> M W B) (s : state W) :
  bind (perform page_do o) k s =
  match page_do o (world s) with
  | (Ret a, w) => k a {| world := w; trace := trace s ++ [Did o (Ret a)] |}
  | (Raise e, w) =>
      (Raise e, {| world := w; trace := trace s ++ [Did o (Raise e)] |})
  end.
Proof.
  unfold bind, perform. by destruct (page_do o (world s)) as [[a|e] w].
Qed.







End Scroll.

(** ** The claims about the normalisers *)

(** C8.  For every text, [clean_rank] returns [#] followed by the first
    run of digits of the text, and the empty string when the text has
    no digit; whether a [#] stands before the run makes no difference.
    The three examples of the specification evaluate as it says. *)
Theorem clean_rank_first_digit_run :
  (forall text : pystr,
     clean_rank (Some text) =
     match first_digit_run text with
     | [] => []
     | ds => str_of "#" ++ ds
     end) /\
  clean_rank None = [] /\
  clean_rank (Some (str_of "#1")) = str_of "#1" /\
  clean_rank (Some (str_of "Best Sellers Rank #42")) = str_of "#42" /\
  clean_rank (Some (str_of "no digits")) = [].
Proof.
  split; [exact clean_rank_spec|]. repeat split; reflexivity.
Qed.

(** C7 as stated fails: cleaning the 501-character name cuts it to 500
    characters that end with a space, and cleaning that again drops the
    space; the same for a rating of 101 characters. *)
Lemma truncation_breaks_idempotence :
  clean_product_name (Some (clean_product_name (Some long_name)))
    <> clean_product_name (Some long_name) /\
  clean_rating (Some (clean_rating (Some long_rating)))
    <> clean_rating (Some long_rating).
Proof.
  split; intros H; apply (f_equal length) in H; vm_compute in H; discriminate.
Qed.

(** C7, amended.  [clean_text] is idempotent.  [clean_product_name]
    and [clean_rating] give their own result back exactly when that
    result does not end with a space, which holds whenever the cleaned
    text fits the limit of 500, respectively 100, characters. *)
Theorem normalisers_idempotent_up_to_truncation (s : pyval) :
  clean_text (Some (clean_text s)) = clean_text s /\
  (clean_product_name (Some (clean_product_name s)) = clean_product_name s
   <-> last (clean_product_name s) <> Some 32%N) /\
  (clean_rating (Some (clean_rating s)) = clean_rating s
   <-> last (clean_rating s) <> Some 32%N) /\
  (length (clean_text s) <= 500 ->
   clean_product_name (Some (clean_product_name s)) = clean_product_name s) /\
  (length (clean_text s) <= 100 ->
   clean_rating (Some (clean_rating s)) = clean_rating s).
Proof.
  assert (Hfit : forall n, length (clean_text s) <= n ->
                           last (take n (clean_text s)) <> Some 32%N).
  { intros n Hn. rewrite take_ge by done. rewrite clean_text_words.
    intros Hl. by apply (join_trimmed _ (split_words _)) in Hl. }
  split; [apply clean_text_idempotent|].
  rewrite !(clean_product_name_take (Some _)), !(clean_rating_take (Some _)).
  rewrite (clean_product_name_take s), (clean_rating_take s).
  repeat split; try apply clean_take_fixed; intros; apply clean_take_fixed; auto.
Qed.

(** ** The claims about validation and deduplication *)

Lemma unique_by_link_subset (seen : gset pyval) (items : list item) (x : item) :
  x ∈ unique_by_link seen items -> x ∈ items.
Proof.
  revert seen. induction items as [|it items IH]; intros seen; simpl; [done|].
  case_bool_decide; rewrite ?elem_of_cons; intros Hx.
  - destruct Hx as [->|Hx]; [by left|right; eauto].
  - right; eauto.
Qed.

Lemma validated_item_dom (raw : item) : dom (validated_item raw) = five_fields.
Proof.
  unfold validated_item, five_fields.
  rewrite !dom_insert_L, dom_empty_L. set_solver.
Qed.

Lemma validate_one_Some (raw it : item) :
  validate_one raw = Some it ->
  it = validated_item raw /\ valid_item it = true.
Proof.
  unfold validate_one. destruct (negb _ || negb _); [done|]. cbv zeta.
  destruct (truthy (get _ "name") && _ && _) eqn:Hok; [|done].
  intros [= <-]. split; [done|].
  unfold valid_item, get, validated_item in *. simplify_map_eq.
  simpl in Hok. unfold nonempty.
  destruct (clean_product_name _), (validate_product_link _); done.
Qed.

Lemma validated_from_input (items : list item) (it : item) :
  it ∈ validate_and_clean_items items ->
  exists raw, raw ∈ items /\ it = validated_item raw /\ valid_item it = true.
Proof.
  intros Hit. apply unique_by_link_subset in Hit.
  apply list_elem_of_omap in Hit as (raw & Hraw & Hv).
  apply validate_one_Some in Hv as [-> Hv]. by exists raw.
Qed.

(** C2.  Whatever the raw candidates, every item that
    [validate_and_clean_items] emits has a non-empty name, a non-empty
    link and a cleaned name of more than 10 characters, and it is the
    cleaned form of one of the candidates, nothing else: a candidate
    whose cleaned form breaks the invariant is not among the emitted
    items. *)
Theorem validate_and_clean_items_invariant (items : list item) :
  Forall (fun it => valid_item it = true /\
                    exists raw, raw ∈ items /\ it = validated_item raw)
    (validate_and_clean_items items) /\
  (forall raw, valid_item (validated_item raw) = false ->
               validated_item raw ∉ validate_and_clean_items items).
Proof.
  split.
  - apply Forall_forall. intros it Hit.
    apply validated_from_input in Hit as (raw & Hraw & -> & Hv). eauto.
  - intros raw Hbad Hin.
    apply validated_from_input in Hin as (_ & _ & _ & Hv). congruence.
Qed.

Lemma dedup_from_select (seen_links seen_asins : gset pyval)
  (items : list item) :
  dedup_from seen_links seen_asins items
  = clean_item <$> select items (dedup_keeps seen_links seen_asins items).
Proof.
  revert seen_links seen_asins.
  induction items as [|it items IH]; intros sl sa; [done|].
  cbn [dedup_from dedup_keeps].
  destruct (dedup_turn it sl sa) as [[sl' sa'] key].
  cbn [select]. destruct (truthy key); cbn; by rewrite IH.
Qed.

(** The output of [deduplicate_products] is its survivors, cleaned of
    the asin, in their order. *)
Lemma deduplicate_products_survivors (items : list item) :
  deduplicate_products items
  = clean_item <$> select items (dedup_keeps ∅ ∅ items).
Proof. apply dedup_from_select. Qed.

(** An item without asin whose link has been seen is dropped. *)
Lemma seen_link_dropped (items : list item) :
  forall (seen_links seen_asins : gset pyval) (j : nat) (b : item),
  items !! j = Some b ->
  truthy (get_or_empty b "asin") = false ->
  get_or_empty b "link" ∈ seen_links ->
  dedup_keeps seen_links seen_asins items !! j = Some false.
Proof.
  induction items as [|it items IH]; intros sl sa j b Hj Hasin Hlink; [done|].
  cbn [dedup_keeps]. destruct j as [|j].
  - injection Hj as ->. unfold dedup_turn. rewrite Hasin. cbn [andb].
    rewrite (bool_decide_eq_false_2 (get_or_empty b "link" ∉ sl)) by auto.
    by rewrite andb_false_r.
  - cbn in Hj. unfold dedup_turn.
    destruct (truthy (get_or_empty it "asin") && _); cbn; [by eapply IH|].
    destruct (truthy (get_or_empty it "link") && _); cbn; eapply IH; eauto.
    apply elem_of_union. by right.
Qed.

(** The half of C1 that holds: of two candidates without a stable
    identifier that have the same link, at most one survives
    [deduplicate_products]. *)
Lemma same_link_one_survives (items : list item) (i j : nat) (a b : item) :
  i < j -> items !! i = Some a -> items !! j = Some b ->
  truthy (get_or_empty a "asin") = false ->
  truthy (get_or_empty b "asin") = false ->
  get_or_empty a "link" = get_or_empty b "link" ->
  survives items i && survives items j = false.
Proof.
  unfold survives. generalize (∅ : gset pyval) at 1 3.
  generalize (∅ : gset pyval).
  revert i j. induction items as [|it items IH];
    intros i j sa sl Hij Hi Hj Ha Hb Hlink; [done|].
  destruct j as [|j]; [lia|]. cbn [dedup_keeps]. destruct i as [|i].
  - injection Hi as ->. cbn in Hj. unfold dedup_turn. rewrite Ha. cbn [andb].
    destruct (truthy (get_or_empty a "link") && _) eqn:Hl; cbn; [|done].
    rewrite (seen_link_dropped items _ _ j b Hj Hb);
      [cbn; by destruct (truthy _)|].
    rewrite <- Hlink. apply elem_of_union. left. by apply elem_of_singleton.
  - cbn in Hi, Hj. destruct (dedup_turn it sl sa) as [[sl' sa'] key]. cbn.
    eapply IH; eauto. lia.
Qed.

(** [by_evaluation] settles a closed equation by evaluating both sides,
    without writing the value out. *)
Ltac by_evaluation :=
  lazymatch goal with
  | |- @eq ?A _ ?b => vm_cast_no_check (@eq_refl A b)
  end.

(** C2 is about something: the two twins pass validation. *)
Example validate_twins :
  validate_and_clean_items [twin_a; twin_b]
  = [validated_item twin_a; validated_item twin_b].
Proof. by_evaluation. Qed.

(** C1 fails on the code.  The two twins carry the same stable
    identifier and both survive: [deduplicate_products] keeps the
    second twin by its link once the asin is in [seen_asins], and in
    [scrape_category] the validation before it has already dropped the
    asin, so that the merged list is deduplicated by link alone. *)
Theorem same_asin_both_survive :
  twin_a !! "asin" = twin_b !! "asin" /\
  truthy (get twin_a "asin") = true /\
  deduplicate_products [twin_a; twin_b]
    = [clean_item twin_a; clean_item twin_b] /\
  take 100 (deduplicate_products
              (validate_and_clean_items [twin_a]
               ++ validate_and_clean_items [twin_b]))
    = [validated_item twin_a; validated_item twin_b] /\
  get (validated_item twin_a) "link" <> get (validated_item twin_b) "link".
Proof.
  repeat split; try by_evaluation.
  intros H. vm_compute in H. discriminate.
Qed.

(** The same end to end: a shop whose second page lists the twenty
    products of the first again serves twenty stable identifiers, and
    forty items survive. *)
Example same_asin_both_survive_in_shop :
  let r := scrape_category (shop_do shop_twice) shop_urljoin books shop_start in
  size (asins_served (trace (snd r))) = 20 /\
  length (category_items (returned (failed_result [] []) (fst r))) = 40.
Proof. cbv zeta. split; by_evaluation. Qed.

(** ** The claims about a category's run *)

Lemma bind_called {W B} (f : string) (k : unit -> M W B) (s : state W) :
  bind (called f) k s
  = k tt {| world := world s; trace := trace s ++ [Called f] |}.
Proof. reflexivity. Qed.

Lemma bind_assoc {W A B C} (m : M W A) (k1 : A -> M W B) (k2 : B -> M W C) s :
  bind (bind m k1) k2 s = bind m (fun a => bind (k1 a) k2) s.
Proof. unfold bind. by destruct (m s) as [[a|e] s1]. Qed.

Lemma emits_trace {W A} (P : event -> bool) (m : M W A) (s : state W) r s' :
  emits P m -> m s = (r, s') ->
  exists d, trace s' = trace s ++ d /\ forallb P d = true.
Proof. intros Hm Hr. specialize (Hm s). by rewrite Hr in Hm. Qed.

Section Category.

Context {W : Type} (page_do : forall o : op, W -> result (ret_of o) * W).
Context (urljoin : pystr -> pystr -> result pystr).

Lemma extract_products_on_page_validated (s : state W) b s' :
  extract_products_on_page page_do urljoin s = (Ret b, s') ->
  exists items, b = validate_and_clean_items items.
Proof.
  unfold extract_products_on_page. intros H.
  apply bind_Ret_inv in H as (items & s1 & _ & H).
  apply bind_Ret_inv in H as (items' & s2 & _ & H).
  injection H as <- _. by exists items'.
Qed.

Lemma scrape_page1_validated url (s : state W) n b1 s1 :
  scrape_page1 page_do urljoin url s = (Ret (n, b1), s1) ->
  exists items, b1 = validate_and_clean_items items.
Proof.
  unfold scrape_page1. intros H.
  apply bind_Ret_inv in H as (? & ? & _ & H).
  apply bind_Ret_inv in H as (? & ? & _ & H).
  apply bind_Ret_inv in H as (? & ? & _ & H).
  apply bind_Ret_inv in H as (? & ? & _ & H).
  apply bind_Ret_inv in H as (b & ? & Hb & H).
  injection H as <- <- _. by apply extract_products_on_page_validated in Hb.
Qed.

Lemma scrape_page2_validated b1 (s1 : state W) b2 s2 :
  scrape_page2 page_do urljoin b1 s1 = (Ret b2, s2) ->
  exists items, b2 = validate_and_clean_items items.
Proof.
  unfold scrape_page2. intros H.
  destruct (15 <=? length b1); [|injection H as <- _; by exists []].
  apply bind_Ret_inv in H as ([] & ? & _ & H);
    [|injection H as <- _; by exists []].
  apply bind_Ret_inv in H as (? & ? & _ & H).
  by apply extract_products_on_page_validated in H.
Qed.

(** [scrape_category] is its [try] block, with a raised exception
    turned into the result of lines 761-771. *)
Lemma scrape_category_run (c : category) (s : state W) :
  scrape_category page_do urljoin c s =
  match scrape_category_try page_do urljoin (cat_url c) s with
  | (Ret res, s') => (Ret res, s')
  | (Raise e, s') => (Ret (failed_result (cat_url c) e), s')
  end.
Proof. reflexivity. Qed.

Lemma scrape_category_try_Ret url (s : state W) res s' :
  scrape_category_try page_do urljoin url s = (Ret res, s') ->
  exists n b1 b2 s1,
    scrape_page1 page_do urljoin url s = (Ret (n, b1), s1) /\
    scrape_page2 page_do urljoin b1 s1 = (Ret b2, s') /\
    res = category_result url n b1 b2.
Proof.
  unfold scrape_category_try. intros H.
  apply bind_Ret_inv in H as ([n b1] & s1 & H1 & H).
  apply bind_Ret_inv in H as (b2 & s2 & H2 & H).
  injection H as <- <-. by exists n, b1, b2, s1.
Qed.

(** C3.  [scrape_category] returns a result from every state of every
    browser, and on the success path as on the caught-error path the
    result has at most 100 items and its [final_unique_items] is their
    number. *)
Theorem scrape_category_bounded (c : category) (s : state W) :
  exists res s',
    scrape_category page_do urljoin c s = (Ret res, s') /\
    length (category_items res) <= 100 /\
    final_unique_items (extraction_stats res) = length (category_items res).
Proof.
  rewrite scrape_category_run.
  destruct (scrape_category_try _ _ _ s) as [[res|e] s'] eqn:Htry.
  - exists res, s'. split; [done|].
    apply scrape_category_try_Ret in Htry as (n & b1 & b2 & s1 & _ & _ & ->).
    cbn. rewrite length_take. split; [lia|done].
  - exists (failed_result (cat_url c) e), s'. cbn. split; [done|]. split; [lia|done].
Qed.

(** C6.  [scrape_category] never raises: from every state of every
    browser it returns a result.  When its [try] block returns, that
    is the result; when the block raises [e], whichever operation
    failed, the result has the category's link, no items and [e] as
    the error of its statistics. *)
Theorem scrape_category_never_raises (c : category) (s : state W) :
  exists res s',
    scrape_category page_do urljoin c s = (Ret res, s') /\
    (forall e s1,
       scrape_category_try page_do urljoin (cat_url c) s = (Raise e, s1) ->
       s' = s1 /\ category_link res = cat_url c /\ category_items res = [] /\
       error (extraction_stats res) = Some e) /\
    (forall r s1,
       scrape_category_try page_do urljoin (cat_url c) s = (Ret r, s1) ->
       s' = s1 /\ res = r).
Proof.
  rewrite scrape_category_run.
  destruct (scrape_category_try _ _ _ s) as [[res|e] s'].
  - exists res, s'. split; [done|]. split; [done|]. by intros r s1 [= <- <-].
  - exists (failed_result (cat_url c) e), s'. split; [done|].
    split; [|done]. by intros e' s1 [= <- <-].
Qed.



Lemma fallback_starts (s1 : state W) :
  exists d, trace (snd (extract_using_universal_selectors page_do urljoin s1))
            = trace s1 ++ Called "extract_using_universal_selectors" :: d.
Proof.
  unfold extract_using_universal_selectors. rewrite bind_called.
  match goal with
  | |- context [bind ?m ?k ?s0] =>
      assert (Hrest : emits (fun _ => true) (bind m k)) by emits_auto;
      destruct (Hrest s0) as (d & Hd & _)
  end.
  exists d. rewrite Hd. cbn [trace]. by rewrite <- app_assoc.
Qed.

(** C5.  Once the container method has yielded its candidates (none
    when there are fewer than ten containers), [extract_products_on_page]
    enters the fallback extractor if and only if they are fewer than
    15.  With 15 or more the candidates are validated as they are and
    nothing more happens.  With fewer, the fallback runs next, and its
    items are validated in their place only when they are strictly
    more; when the fallback raises, so does the extraction. *)
Theorem fallback_invoked_iff_fewer_than_15 (s : state W) (items : list item)
  (s1 : state W) :
  asin_method page_do urljoin s = (Ret items, s1) ->
  let r := extract_products_on_page page_do urljoin s in
  (Called "extract_using_universal_selectors" ∈ events_since s (snd r)
   <-> length items < 15) /\
  (15 <= length items -> r = (Ret (validate_and_clean_items items), s1)) /\
  (length items < 15 ->
   match extract_using_universal_selectors page_do urljoin s1 with
   | (Ret fallback_items, s2) =>
       r = (Ret (validate_and_clean_items
                   (if length items <? length fallback_items
                    then fallback_items else items)), s2)
   | (Raise e, s2) => r = (Raise e, s2)
   end).
Proof.
  intros Ha. cbv zeta. unfold extract_products_on_page.
  rewrite (bind_Ret _ _ _ _ _ Ha). unfold with_fallback.
  destruct (emits_trace _ _ _ _ _ (asin_method_emits page_do urljoin) Ha)
    as (d1 & Hd1 & Hquiet).
  destruct (length items <? 15) eqn:Hlen.
  - apply Nat.ltb_lt in Hlen. rewrite bind_assoc.
    destruct (fallback_starts s1) as (d2 & Hd2).
    assert (Hin : forall s2 : state W,
              trace s2 = trace s1 ++ Called "extract_using_universal_selectors" :: d2 ->
              Called "extract_using_universal_selectors" ∈ events_since s s2).
    { intros s2 Hs2.
      rewrite (events_since_app s s2
                 (d1 ++ Called "extract_using_universal_selectors" :: d2)).
      - apply elem_of_app. right. by left.
      - by rewrite Hs2, Hd1, app_assoc. }
    destruct (extract_using_universal_selectors _ _ s1) as [[fb|e] s2] eqn:Hfb;
      cbn [snd] in Hd2.
    + rewrite (bind_Ret _ _ _ _ _ Hfb).
      assert (Hrun : forall its : list item,
                (items0 <- ret its;; ret (validate_and_clean_items items0)) s2
                = (Ret (validate_and_clean_items its), s2)) by done.
      destruct (length items <? length fb); rewrite Hrun; cbn [snd];
        (split; [split; [lia|auto]|]; split; [lia|done]).
    + rewrite (bind_Raise _ _ _ _ _ Hfb). cbn [snd].
      split; [split; [lia|auto]|]. split; [lia|done].
  - apply Nat.ltb_ge in Hlen. cbn [bind ret snd].
    rewrite (events_since_app s s1 d1 Hd1). split; [|split; [done|lia]].
    split; [|lia]. intros Hin. exfalso.
    rewrite forallb_forall in Hquiet.
    apply list_elem_of_In, Hquiet in Hin. done.
Qed.

Lemma try_except_Ret_inv {A} (m : M W A) (h : pystr -> M W A) s a s' :
  try_except m h s = (Ret a, s') ->
  m s = (Ret a, s') \/ exists e s1, m s = (Raise e, s1) /\ h e s1 = (Ret a, s').
Proof.
  unfold try_except. destruct (m s) as [[a0|e] s1]; intros H; [by left|].
  right. by exists e, s1.
Qed.

(** What holds of the loop's variables at the start and is kept by
    every turn that returns holds when the loop returns. *)
Lemma for_each_inv {X S} (I : S -> Prop) (xs : list X)
  (body : X -> S -> M W (flow S)) :
  (forall x v s f s', I v -> body x v s = (Ret f, s') ->
                      I (match f with Next v' | Break v' => v' end)) ->
  forall v s v' s', I v -> for_each xs body v s = (Ret v', s') -> I v'.
Proof.
  intros Hbody. induction xs as [|x xs IH]; intros v s v' s' Hv Hrun.
  - by injection Hrun as <- _.
  - cbn [for_each] in Hrun.
    apply bind_Ret_inv in Hrun as (f & s1 & Hf & Hrun).
    specialize (Hbody x v s f s1 Hv Hf). destruct f as [v1|v1].
    + eauto.
    + by injection Hrun as <- _.
Qed.

Lemma container_turn_items asin_containers i items (s : state W) items' s' :
  container_turn page_do urljoin asin_containers i items s = (Ret items', s') ->
  items' = items \/ exists it, "asin" ∈ dom it /\ items' = items ++ [it].
Proof.
  unfold container_turn. intros H.
  apply bind_Ret_inv in H as (asin & ? & _ & H).
  apply bind_Ret_inv in H as (? & ? & _ & H).
  apply bind_Ret_inv in H as ([name link] & ? & _ & H).
  apply bind_Ret_inv in H as (rank & ? & _ & H).
  apply bind_Ret_inv in H as (rating & ? & _ & H).
  apply bind_Ret_inv in H as (price & ? & _ & H).
  destruct (nonempty name && nonempty link && (15 <? length name));
    injection H as <- _; [right|by left].
  eexists. split; [|reflexivity]. rewrite dom_insert_L. set_solver.
Qed.

(** The container extractor attaches the stable identifier to every
    candidate it builds. *)
Lemma container_candidates_carry_asin asin_containers (s : state W) items s' :
  extract_from_asin_containers_universal page_do urljoin asin_containers s
    = (Ret items, s') ->
  Forall (fun it => "asin" ∈ dom it) items.
Proof.
  unfold extract_from_asin_containers_universal. intros H.
  apply bind_Ret_inv in H as (n & s1 & _ & H).
  revert H. apply for_each_inv; [|constructor].
  intros i v s2 f s3 Hv Hf.
  apply try_except_Ret_inv in Hf as [Hf|(e & s4 & _ & Hf)].
  - apply bind_Ret_inv in Hf as (items' & s4 & Hturn & Hf).
    injection Hf as <- _.
    apply container_turn_items in Hturn as [->|(it & Hit & ->)]; [done|].
    apply Forall_app. split; [done|]. by apply Forall_singleton.
  - by injection Hf as <- _.
Qed.

End Category.

(** C10.  Every item that [validate_and_clean_items] emits has exactly
    the five keys rank, name, link, rating and price, whatever keys the
    candidates had; the container extractor does attach an asin to each
    of its candidates; and whenever [scrape_category] returns without
    an error, its result is built from two validated batches, so that
    no item of the merged list it hands to [deduplicate_products] has
    an asin. *)
Theorem validated_items_carry_no_asin :
  (forall items : list item,
     Forall (fun it => dom it = five_fields) (validate_and_clean_items items)) /\
  (forall W (page_do : forall o : op, W -> result (ret_of o) * W) urljoin
          asin_containers (s : state W) items s',
     extract_from_asin_containers_universal page_do urljoin asin_containers s
       = (Ret items, s') ->
     Forall (fun it => "asin" ∈ dom it) items) /\
  (forall W (page_do : forall o : op, W -> result (ret_of o) * W) urljoin
          c (s : state W) res s',
     scrape_category page_do urljoin c s = (Ret res, s') ->
     error (extraction_stats res) = None ->
     exists n raw1 raw2,
       let b1 := validate_and_clean_items raw1 in
       let b2 := validate_and_clean_items raw2 in
       res = category_result (cat_url c) n b1 b2 /\
       Forall (fun it => dom it = five_fields /\ get_or_empty it "asin" = Some [])
         (b1 ++ b2)).
Proof.
  assert (Hfields : forall items : list item,
            Forall (fun it => dom it = five_fields)
              (validate_and_clean_items items)).
  { intros items. apply Forall_forall. intros it Hit.
    apply validated_from_input in Hit as (raw & _ & -> & _).
    apply validated_item_dom. }
  split; [exact Hfields|]. split.
  { intros. by eapply container_candidates_carry_asin. }
  intros W page_do urljoin c s res s' Hrun Herr.
  rewrite scrape_category_run in Hrun.
  destruct (scrape_category_try _ _ _ s) as [[r|e] s2] eqn:Htry;
    injection Hrun as <- <-; [|done].
  apply scrape_category_try_Ret in Htry as (n & b1 & b2 & s1 & H1 & H2 & ->).
  apply scrape_page1_validated in H1 as (raw1 & ->).
  apply scrape_page2_validated in H2 as (raw2 & ->).
  exists n, raw1, raw2. cbv zeta. split; [done|].
  apply Forall_app. split.
  all: eapply Forall_impl; [apply Hfields|]; intros it Hdom; split; [done|].
  all: unfold get_or_empty; rewrite (not_elem_of_dom_1 it "asin"); [done|].
  all: rewrite Hdom; unfold five_fields.
  all: rewrite !not_elem_of_union, !not_elem_of_singleton; done.
Qed.

(** ** The claims at work *)


(** In the shop of twenty the count is 20 at every measurement: the
    third turn meets the test and the loop stops after 3 of its 8
    turns. *)
Example scroll_stops_early_in_shop :
  let r := scroll_to_bottom_enhanced (shop_do shop20) 8 2000 shop_start in
  fst r = Ret 20 /\ scrolls (trace (snd r)) = 3 /\
  measurements (trace (snd r)) = [20; 20; 20; 20].
Proof. cbv zeta. repeat split; by_evaluation. Qed.


(** C5 at work, scenario D of the specification: of twenty containers
    only eight hold a product link, so the container method yields 8
    candidates; the fallback runs and yields 20, and the 20 are
    validated. *)
Lemma fallback_replaces_8_by_20 :
  let run := asin_method (shop_do shop8of20) shop_urljoin shop_start in
  let items := returned [] (fst run) in
  let run2 := extract_using_universal_selectors (shop_do shop8of20)
                shop_urljoin (snd run) in
  let fallback_items := returned [] (fst run2) in
  length items = 8 /\ length fallback_items = 20 /\
  Called "extract_using_universal_selectors"
    ∈ events_since shop_start
        (snd (extract_products_on_page (shop_do shop8of20) shop_urljoin
                shop_start)) /\
  extract_products_on_page (shop_do shop8of20) shop_urljoin shop_start
    = (Ret (validate_and_clean_items fallback_items), snd run2).
Proof.
  cbv zeta.
  assert (Hlen : length (returned []
                   (fst (asin_method (shop_do shop8of20) shop_urljoin
                           shop_start))) = 8) by by_evaluation.
  assert (Hlen2 : length (returned []
                    (fst (extract_using_universal_selectors (shop_do shop8of20)
                            shop_urljoin
                            (snd (asin_method (shop_do shop8of20) shop_urljoin
                                    shop_start))))) = 20) by by_evaluation.
  split; [exact Hlen|]. split; [exact Hlen2|].
  destruct (fallback_invoked_iff_fewer_than_15 (shop_do shop8of20) shop_urljoin
              shop_start _ _ (run_returned [] _ (ltac:(by_evaluation))))
    as (Hiff & _ & Hfew).
  split; [apply Hiff; rewrite Hlen; lia|].
  specialize (Hfew ltac:(rewrite Hlen; lia)).
  pose proof (run_returned []
                (extract_using_universal_selectors (shop_do shop8of20)
                   shop_urljoin
                   (snd (asin_method (shop_do shop8of20) shop_urljoin
                           shop_start)))
                (ltac:(by_evaluation))) as E.
  destruct (extract_using_universal_selectors (shop_do shop8of20) shop_urljoin
              (snd (asin_method (shop_do shop8of20) shop_urljoin shop_start)))
    as [[fb|e] s2]; [|discriminate E].
  cbn [returned fst snd] in *. rewrite Hlen, Hlen2 in Hfew. exact Hfew.
Defined.

(** C6 at work: on the browser whose every operation times out the
    first navigation raises, and [scrape_category] returns the result
    with no items and the message of the exception. *)
Lemma broken_page_gives_failed_result :
  exists res s',
    scrape_category broken_page shop_urljoin books broken_start = (Ret res, s') /\
    category_link res = cat_url books /\ category_items res = [] /\
    error (extraction_stats res) = Some (str_of "Timeout exceeded").
Proof.
  destruct (scrape_category_never_raises broken_page shop_urljoin books
              broken_start) as (res & s' & Hrun & Hfail & _).
  destruct (Hfail (str_of "Timeout exceeded")
              {| world := tt;
                 trace := [Did (Goto (cat_url books) 30000)
                             (Raise (str_of "Timeout exceeded"))] |}
              eq_refl) as (_ & Hlink & Hitems & Herr).
  by exists res, s'.
Defined.

(** C10 at work: the forty items of a run through the shop of twenty
    come from containers that carried forty different asins, and none
    of the items has one. *)
Lemma shop_items_carry_no_asin :
  let run := scrape_category (shop_do shop20) shop_urljoin books shop_start in
  let res := returned (failed_result [] []) (fst run) in
  size (asins_served (trace (snd run))) = 40 /\
  length (category_items res) = 40 /\
  exists n raw1 raw2,
    res = category_result (cat_url books) n
            (validate_and_clean_items raw1) (validate_and_clean_items raw2) /\
    Forall (fun it => dom it = five_fields /\ get_or_empty it "asin" = Some [])
      (validate_and_clean_items raw1 ++ validate_and_clean_items raw2).
Proof.
  cbv zeta. split; [by_evaluation|]. split; [by_evaluation|].
  refine (proj2 (proj2 validated_items_carry_no_asin) _ _ _ _ _ _ _
            (run_returned (failed_result [] []) _ (ltac:(by_evaluation))) _).
  by_evaluation.
Defined.

(** ** Further properties of the normalisers *)

Lemma join_cons_first (sep : pystr) (c : N) (w : pystr) (ws : list pystr) :
  length (join sep ((c :: w) :: ws)) = S (length (join sep (w :: ws))).
Proof. by destruct ws. Qed.

Lemma join_split_length (s : pystr) :
  length (join [32%N] (split s)) <= length s /\
  (forall c t, s = c :: t -> isspace c = true ->
               length (join [32%N] (split s)) < length s).
Proof.
  induction s as [|c s [IH IHsp]].
  { split; [done|]. intros; discriminate. }
  destruct (isspace c) eqn:Hc.
  - rewrite (split_space c s Hc). cbn [length]. split; [lia|]. intros; lia.
  - split; [|intros ? ? [= <- <-]; congruence].
    destruct s as [|d s]; [simpl; rewrite Hc; simpl; lia|].
    rewrite split_cons2, Hc. destruct (isspace d) eqn:Hd.
    + specialize (IHsp d s eq_refl Hd).
      destruct (split (d :: s)) as [|w ws]; [simpl; lia|].
      rewrite join_cons2. rewrite !length_app. cbn [length] in *. lia.
    + destruct (split (d :: s)) as [|w ws]; [simpl; lia|].
      cbn [cons_first]. rewrite join_cons_first. cbn [length] in *. lia.
Qed.

Lemma join_space_only (ws : list pystr) :
  Forall is_word ws ->
  Forall (fun c => isspace c = true -> c = 32%N) (join [32%N] ws).
Proof.
  induction 1 as [|w ws [_ Hw] Hws IH]; [constructor|].
  assert (Hw' : Forall (fun c => isspace c = true -> c = 32%N) w).
  { eapply Forall_impl; [exact Hw|]. simpl. congruence. }
  destruct ws as [|w2 ws]; [done|].
  rewrite join_cons2. apply Forall_app. split; [done|].
  apply Forall_app. split; [by repeat constructor|done].
Qed.

(** X1.  [clean_text] returns the words of the text with one space
    between them: the [strip] of line 90 finds nothing to remove.  The
    result has the words of the input, neither starts nor ends with
    white space, holds no white space but U+0020, and is never longer
    than the input. *)
Theorem clean_text_normal_form (s : pyval) :
  clean_text s = join [32%N] (split (default [] s)) /\
  split (clean_text s) = split (default [] s) /\
  trimmed (clean_text s) /\
  Forall (fun c => isspace c = true -> c = 32%N) (clean_text s) /\
  length (clean_text s) <= length (default [] s).
Proof.
  rewrite clean_text_words.
  pose proof (split_words (default [] s)) as Hw.
  split; [done|]. split; [by apply split_join|].
  split; [by apply join_trimmed|]. split; [by apply join_space_only|].
  apply join_split_length.
Qed.

(** *** The shape of a rank *)

Lemma digits_prefix_decimal (s : pystr) :
  forallb isdecimal (digits_prefix s) = true.
Proof.
  induction s as [|c s IH]; [done|]. simpl.
  destruct (isdecimal c) eqn:Hc; [|done]. simpl. by rewrite Hc.
Qed.

Lemma digits_prefix_fixed (ds : pystr) :
  forallb isdecimal ds = true -> digits_prefix ds = ds.
Proof.
  induction ds as [|c ds IH]; [done|]. simpl.
  intros [Hc Hds]%andb_true_iff. rewrite Hc. by rewrite IH.
Qed.

Lemma rank_shaped_fixed (r : pystr) :
  rank_shaped r = true -> clean_rank (Some r) = r.
Proof.
  destruct r as [|c ds]; [done|]. cbn [rank_shaped].
  intros [[Hc Hne]%andb_true_iff Hds]%andb_true_iff.
  apply N.eqb_eq in Hc. subst c.
  rewrite clean_rank_spec. unfold first_digit_run.
  change (skip _ (35%N :: ds)) with (skip (fun c => negb (isdecimal c)) ds).
  rewrite digits_prefix_skip; rewrite digits_prefix_fixed; try done.
  all: by destruct ds.
Qed.

Lemma clean_rank_shaped (v : pyval) : rank_shaped (clean_rank v) = true.
Proof.
  destruct v as [t|]; [|done]. rewrite clean_rank_spec.
  destruct (first_digit_run t) as [|d ds] eqn:Hrun; [done|].
  change (forallb isdecimal (d :: ds) = true).
  rewrite <- Hrun. apply digits_prefix_decimal.
Qed.

(** X2.  Whatever it is given, [clean_rank] returns the empty string or
    [#] followed by one or more decimal digits, and it gives every
    string of that shape back as it is, its own results among them. *)
Theorem clean_rank_shape_and_fixpoint (v : pyval) :
  rank_shaped (clean_rank v) = true /\
  clean_rank (Some (clean_rank v)) = clean_rank v /\
  (forall r, rank_shaped r = true -> clean_rank (Some r) = r).
Proof.
  split; [apply clean_rank_shaped|].
  split; [apply rank_shaped_fixed, clean_rank_shaped|apply rank_shaped_fixed].
Qed.

(** ** Further properties of validation and deduplication *)

Lemma clean_text_plain_spaces (s : pyval) : plain_spaces (clean_text s) = true.
Proof.
  rewrite clean_text_words. unfold plain_spaces. apply forallb_forall.
  intros c Hc.
  pose proof (join_space_only _ (split_words (default [] s))) as H.
  rewrite Forall_forall in H. apply list_elem_of_In in Hc.
  specialize (H c Hc). destruct (isspace c); [|done].
  rewrite (H eq_refl). done.
Qed.

Lemma plain_spaces_take (n : nat) (s : pystr) :
  plain_spaces s = true -> plain_spaces (take n s) = true.
Proof.
  unfold plain_spaces. rewrite !forallb_forall. intros H c Hc. apply H.
  apply list_elem_of_In. apply list_elem_of_In in Hc.
  by apply (subseteq_take n s).
Qed.

Lemma clean_price_text (v : pyval) : clean_price v = clean_text v.
Proof. by destruct v as [[|c t]|]. Qed.

Lemma validate_product_link_dp (v : pyval) :
  nonempty (validate_product_link v) = true ->
  contains (str_of "/dp/") (validate_product_link v) = true.
Proof.
  destruct v as [[|c t]|]; [done| |done]. unfold validate_product_link.
  by destruct (contains _ _) eqn:H.
Qed.

Lemma well_formed_product (rank name link rating price : pystr) :
  well_formed (product rank name link rating price)
  = rank_shaped rank
    && (10 <? length name) && (length name <=? 500) && plain_spaces name
    && contains (str_of "/dp/") link
    && (length rating <=? 100) && plain_spaces rating
    && plain_spaces price && bool_decide (clean_text (Some price) = price).
Proof. unfold well_formed, product. by simplify_map_eq. Qed.

Lemma valid_item_product (rank name link rating price : pystr) :
  valid_item (product rank name link rating price)
  = nonempty name && nonempty link && (10 <? length name).
Proof. unfold valid_item, product. by simplify_map_eq. Qed.

Lemma validated_item_product (raw : item) :
  validated_item raw
  = product (clean_rank (get_or_empty raw "rank"))
      (clean_product_name (get_or_empty raw "name"))
      (validate_product_link (get_or_empty raw "link"))
      (clean_rating (get_or_empty raw "rating"))
      (clean_price (get_or_empty raw "price")).
Proof. reflexivity. Qed.

Lemma validated_item_well_formed (raw : item) :
  valid_item (validated_item raw) = true ->
  well_formed (validated_item raw) = true.
Proof.
  rewrite validated_item_product, valid_item_product, well_formed_product.
  intros [[Hn Hl]%andb_true_iff Hlen]%andb_true_iff.
  rewrite clean_rank_shaped, Hlen, (validate_product_link_dp _ Hl).
  rewrite clean_price_text, clean_text_idempotent, bool_decide_eq_true_2 by done.
  rewrite clean_text_plain_spaces.
  rewrite clean_product_name_take, clean_rating_take.
  rewrite !plain_spaces_take by apply clean_text_plain_spaces.
  rewrite !length_take.
  rewrite (proj2 (Nat.leb_le _ _)) by lia.
  rewrite (proj2 (Nat.leb_le _ _)) by lia.
  done.
Qed.

Lemma validated_well_formed (items : list item) :
  Forall (fun it => well_formed it = true /\ dom it = five_fields)
    (validate_and_clean_items items).
Proof.
  apply Forall_forall. intros it Hit.
  apply validated_from_input in Hit as (raw & _ & -> & Hv).
  split; [by apply validated_item_well_formed|apply validated_item_dom].
Qed.

(** X3.  Every item that [validate_and_clean_items] emits has exactly
    the five keys, each with a string: a rank that is empty or [#] and
    digits, a name of 11 to 500 characters, a link that contains
    [/dp/], a rating of at most 100 characters and a price that
    [clean_text] leaves as it is; name, rating and price hold no white
    space but U+0020. *)
Theorem validate_and_clean_items_well_formed (items : list item) :
  Forall (fun it => well_formed it = true /\ dom it = five_fields)
    (validate_and_clean_items items).
Proof. apply validated_well_formed. Qed.

(** *** One item for each link *)

Lemma unique_by_link_fresh (seen : gset pyval) (l : list item) (it : item) :
  it ∈ unique_by_link seen l -> link_of it ∉ seen.
Proof.
  revert seen. induction l as [|x l IH]; intros seen; simpl; [by intros ?%elem_of_nil|].
  case_bool_decide as Hx.
  - intros [->|Hin]%elem_of_cons; [done|].
    apply IH in Hin. intros Hs. apply Hin, elem_of_union. by right.
  - apply IH.
Qed.

Lemma unique_by_link_NoDup (seen : gset pyval) (l : list item) :
  NoDup (link_of <$> unique_by_link seen l).
Proof.
  revert seen. induction l as [|x l IH]; intros seen; simpl; [constructor|].
  case_bool_decide as Hx; [|apply IH].
  cbn [fmap list_fmap]. constructor; [|apply IH].
  intros (it & Heq & Hin)%list_elem_of_fmap.
  apply unique_by_link_fresh in Hin. apply Hin, elem_of_union. left.
  apply elem_of_singleton. by rewrite <- Heq.
Qed.

Lemma unique_by_link_sublist (seen : gset pyval) (l : list item) :
  unique_by_link seen l `sublist_of` l.
Proof.
  revert seen. induction l as [|x l IH]; intros seen; simpl; [constructor|].
  case_bool_decide; [apply sublist_skip|apply sublist_cons]; apply IH.
Qed.

Lemma unique_by_link_first (seen : gset pyval) (l : list item) (i : nat)
  (v : item) :
  l !! i = Some v -> link_of v ∉ seen ->
  (forall j w, j < i -> l !! j = Some w -> link_of w <> link_of v) ->
  v ∈ unique_by_link seen l.
Proof.
  revert seen i. induction l as [|x l IH]; intros seen i Hi Hv Hfirst; [done|].
  simpl. destruct i as [|i].
  - injection Hi as ->. fold (link_of v). rewrite bool_decide_eq_true_2 by done.
    by left.
  - cbn in Hi. fold (link_of x).
    assert (Hrest : forall j w, j < i -> l !! j = Some w -> link_of w <> link_of v).
    { intros j w Hj Hw. apply (Hfirst (S j) w); [lia|done]. }
    case_bool_decide as Hx.
    + right. apply (IH _ i); [done| |done].
      rewrite not_elem_of_union, not_elem_of_singleton. split; [|done].
      intros Heq. by apply (Hfirst 0 x); [lia|done|].
    + by apply (IH _ i).
Qed.

Lemma filter_fresh_link (x : pyval) (seen : gset pyval) (l : list item) :
  x ∉ link_of <$> l ->
  filter (fun it => link_of it ∉ {[x]} ∪ seen) l
  = filter (fun it => link_of it ∉ seen) l.
Proof.
  induction l as [|it l IH]; intros Hx; [done|].
  cbn [fmap list_fmap] in Hx. apply not_elem_of_cons in Hx as [Hne Hx].
  rewrite !filter_cons, (IH Hx).
  destruct (decide (link_of it ∉ seen)) as [Hs|Hs].
  - rewrite decide_True; [done|].
    rewrite not_elem_of_union, not_elem_of_singleton. by split.
  - rewrite decide_False; [done|].
    rewrite not_elem_of_union. by intros [_ ?].
Qed.

Lemma unique_by_link_filter (seen : gset pyval) (l : list item) :
  NoDup (link_of <$> l) ->
  unique_by_link seen l = filter (fun it => link_of it ∉ seen) l.
Proof.
  revert seen. induction l as [|x l IH]; intros seen Hnd; [done|].
  cbn [fmap list_fmap] in Hnd. apply NoDup_cons in Hnd as [Hx Hnd].
  simpl. fold (link_of x). rewrite filter_cons.
  case_bool_decide as Hs.
  - rewrite decide_True by exact Hs. rewrite IH by done. f_equal.
    by apply filter_fresh_link.
  - rewrite decide_False by (intros Hn; exact (Hn Hs)). by apply IH.
Qed.

Lemma unique_by_link_app (seen : gset pyval) (a b : list item) :
  unique_by_link seen (a ++ b)
  = unique_by_link seen a
    ++ unique_by_link (list_to_set (link_of <$> a) ∪ seen) b.
Proof.
  revert seen. induction a as [|x a IH]; intros seen.
  - cbn. by rewrite (left_id_L ∅ (∪)).
  - cbn [app unique_by_link fmap list_fmap list_to_set]. fold (link_of x).
    case_bool_decide as Hs.
    + cbn [app]. f_equal. rewrite IH. do 2 f_equal. set_solver.
    + rewrite IH. do 2 f_equal. set_solver. 
Qed.

Lemma omap_length_le {A B} (f : A -> option B) (l : list A) :
  length (omap f l) <= length l.
Proof.
  induction l as [|x l IH]; [done|]. cbn. destruct (f x); cbn; lia.
Qed.

(** X4.  [validate_and_clean_items] emits one item for each link: the
    links of its items are pairwise distinct, the items are a
    subsequence of the validated candidates, no more than the raw
    candidates, and the first validated candidate of every link is
    among them. *)
Theorem validate_and_clean_items_first_of_each_link (items : list item) :
  let validated := omap validate_one items in
  let unique_items := validate_and_clean_items items in
  NoDup (link_of <$> unique_items) /\
  unique_items `sublist_of` validated /\
  length unique_items <= length items /\
  (forall i v, validated !! i = Some v ->
     (forall j w, j < i -> validated !! j = Some w -> link_of w <> link_of v) ->
     v ∈ unique_items).
Proof.
  cbv zeta. unfold validate_and_clean_items.
  split; [apply unique_by_link_NoDup|].
  split; [apply unique_by_link_sublist|]. split.
  - etrans; [apply sublist_length, unique_by_link_sublist|].
    apply omap_length_le.
  - intros i v Hi Hfirst. by apply (unique_by_link_first _ _ i).
Qed.

(** *** What [deduplicate_products] emits *)

Lemma dedup_from_output (seen_links seen_asins : gset pyval)
  (items : list item) :
  dedup_from seen_links seen_asins items `sublist_of` (clean_item <$> items) /\
  Forall (fun it => exists raw, raw ∈ items /\ it = clean_item raw /\
            truthy (get_or_empty raw "asin")
            || truthy (get_or_empty raw "link") = true)
    (dedup_from seen_links seen_asins items).
Proof.
  revert seen_links seen_asins.
  induction items as [|x items IH]; intros sl sa; [by split; constructor|].
  cbn [dedup_from fmap list_fmap]. unfold dedup_turn.
  assert (Hrest : forall sl' sa',
    Forall (fun it => exists raw, raw ∈ x :: items /\ it = clean_item raw /\
              truthy (get_or_empty raw "asin")
              || truthy (get_or_empty raw "link") = true)
      (dedup_from sl' sa' items)).
  { intros sl' sa'. eapply Forall_impl; [apply (IH sl' sa')|].
    intros it (raw & Hraw & Heq & Hkey). exists raw. split; [by right|done]. }
  destruct (truthy (get_or_empty x "asin") && _) eqn:Ha; cbn.
  - apply andb_true_iff in Ha as [Ha _]. split.
    + apply sublist_skip, IH.
    + constructor; [|apply Hrest]. exists x. rewrite Ha. split; [by left|done].
  - destruct (truthy (get_or_empty x "link") && _) eqn:Hl; cbn.
    + apply andb_true_iff in Hl as [Hl _]. split.
      * apply sublist_skip, IH.
      * constructor; [|apply Hrest]. exists x. rewrite Hl, orb_true_r.
        split; [by left|done].
    + split; [apply sublist_cons, IH|apply Hrest].
Qed.

Lemma clean_item_no_asin (it : item) : clean_item it !! "asin" = None.
Proof. apply lookup_delete_eq. Qed.

(** X5.  Whatever the items, [deduplicate_products] returns some of
    them, in their order and without their asin key: never more than it
    was given, no item with an asin, and no item that had neither an
    asin nor a link. *)
Theorem deduplicate_products_output (items : list item) :
  deduplicate_products items `sublist_of` (clean_item <$> items) /\
  length (deduplicate_products items) <= length items /\
  Forall (fun it => it !! "asin" = None /\
            exists raw, raw ∈ items /\ it = clean_item raw /\
              truthy (get_or_empty raw "asin")
              || truthy (get_or_empty raw "link") = true)
    (deduplicate_products items).
Proof.
  destruct (dedup_from_output ∅ ∅ items) as [Hsub Hall].
  split; [exact Hsub|]. split.
  - apply sublist_length in Hsub. by rewrite length_fmap in Hsub.
  - eapply Forall_impl; [exact Hall|]. intros it (raw & Hraw & -> & Hkey).
    split; [apply clean_item_no_asin|]. by exists raw.
Qed.

(** *** Deduplication of validated batches *)

Lemma dedup_from_by_link (seen_links seen_asins : gset pyval)
  (items : list item) :
  Forall (fun it => it !! "asin" = None /\ truthy (link_of it) = true) items ->
  dedup_from seen_links seen_asins items = unique_by_link seen_links items.
Proof.
  revert seen_links. induction items as [|x items IH]; intros sl Hall; [done|].
  apply Forall_cons in Hall as [[Hasin Hlink] Hall].
  cbn [dedup_from unique_by_link]. unfold dedup_turn.
  assert (Ha : get_or_empty x "asin" = Some []).
  { unfold get_or_empty. by rewrite Hasin. }
  assert (Hl : get_or_empty x "link" = get x "link").
  { unfold link_of, get in Hlink. unfold get_or_empty, get.
    destruct (x !! "link"); [done|discriminate]. }
  rewrite Ha, Hl. cbn [truthy andb]. fold (link_of x). rewrite Hlink.
  cbn [andb]. unfold clean_item.
  case_bool_decide as Hs; cbn.
  - destruct (link_of x) as [[|c t]|] eqn:E; try discriminate.
    cbn. rewrite delete_id by done. by rewrite IH.
  - by apply IH.
Qed.

Lemma well_formed_by_link (it : item) :
  well_formed it = true -> dom it = five_fields ->
  it !! "asin" = None /\ truthy (link_of it) = true.
Proof.
  intros Hwf Hdom. split.
  - apply not_elem_of_dom. rewrite Hdom. unfold five_fields.
    rewrite !not_elem_of_union, !not_elem_of_singleton. done.
  - unfold well_formed, link_of, get in *.
    destruct (it !! "rank") as [[rank|]|]; try done.
    destruct (it !! "name") as [[name|]|]; try done.
    destruct (it !! "link") as [[link|]|]; try done.
    destruct (it !! "rating") as [[rating|]|]; try done.
    destruct (it !! "price") as [[price|]|]; try done.
    repeat (apply andb_true_iff in Hwf as [Hwf ?]).
    destruct link; [discriminate|done].
Qed.

Lemma validated_by_link (items : list item) :
  Forall (fun it => it !! "asin" = None /\ truthy (link_of it) = true)
    (validate_and_clean_items items).
Proof.
  eapply Forall_impl; [apply validated_well_formed|].
  intros it [Hwf Hdom]. by apply well_formed_by_link.
Qed.

Lemma filter_all {A} (P : A -> Prop) `{forall x, Decision (P x)} (l : list A) :
  Forall P l -> filter P l = l.
Proof.
  induction 1 as [|x l Hx Hl IH]; [done|].
  by rewrite filter_cons, decide_True, IH.
Qed.

Lemma dedup_of_validated (raw1 raw2 : list item) :
  let first_batch := validate_and_clean_items raw1 in
  let second_batch := validate_and_clean_items raw2 in
  deduplicate_products first_batch = first_batch /\
  deduplicate_products (first_batch ++ second_batch)
  = first_batch
    ++ filter (fun it => link_of it ∉ link_of <$> first_batch) second_batch.
Proof.
  cbv zeta. unfold deduplicate_products.
  assert (H1 : unique_by_link ∅ (validate_and_clean_items raw1)
               = validate_and_clean_items raw1).
  { rewrite unique_by_link_filter by apply unique_by_link_NoDup.
    apply filter_all, Forall_forall. intros it _. apply not_elem_of_empty. }
  split.
  - rewrite dedup_from_by_link by apply validated_by_link. exact H1.
  - rewrite dedup_from_by_link
      by (apply Forall_app; split; apply validated_by_link).
    rewrite unique_by_link_app, H1. f_equal.
    rewrite unique_by_link_filter by apply unique_by_link_NoDup.
    apply list_filter_iff. intros it.
    rewrite not_elem_of_union, elem_of_list_to_set.
    split; [by intros [? _]|]. intros H. split; [done|apply not_elem_of_empty].
Qed.

(** X6.  On validated batches [deduplicate_products] only removes
    repeated links: one batch passes as it is, and of two batches the
    first passes as it is, followed by the items of the second whose
    link is not in the first. *)
Theorem deduplicate_products_of_validated (raw1 raw2 : list item) :
  let first_batch := validate_and_clean_items raw1 in
  let second_batch := validate_and_clean_items raw2 in
  deduplicate_products first_batch = first_batch /\
  deduplicate_products (first_batch ++ second_batch)
  = first_batch
    ++ filter (fun it => link_of it ∉ link_of <$> first_batch) second_batch.
Proof. apply dedup_of_validated. Qed.

(** ** Further properties of a category's result *)

Lemma merged_batches (raw1 raw2 : list item) :
  deduplicate_products
    (validate_and_clean_items raw1 ++ validate_and_clean_items raw2)
  = validate_and_clean_items raw1
    ++ filter (fun it => link_of it ∉ link_of <$> validate_and_clean_items raw1)
         (validate_and_clean_items raw2).
Proof. apply dedup_of_validated. Qed.

Lemma merged_batches_by_link (raw1 raw2 : list item) :
  deduplicate_products
    (validate_and_clean_items raw1 ++ validate_and_clean_items raw2)
  = unique_by_link ∅
      (validate_and_clean_items raw1 ++ validate_and_clean_items raw2).
Proof.
  unfold deduplicate_products.
  apply dedup_from_by_link, Forall_app; split; apply validated_by_link.
Qed.

Section CategoryResults.

Context {W : Type} (page_do : forall o : op, W -> result (ret_of o) * W).
Context (urljoin : pystr -> pystr -> result pystr).

Lemma scrape_page2_needs_15 b1 (s1 : state W) b2 s2 :
  scrape_page2 page_do urljoin b1 s1 = (Ret b2, s2) ->
  b2 = [] \/ 15 <= length b1.
Proof.
  unfold scrape_page2. destruct (15 <=? length b1) eqn:H.
  - right. by apply Nat.leb_le.
  - intros [= <- _]. by left.
Qed.

(** What a returning [try] block amounts to. *)
Lemma scrape_category_try_batches url (s : state W) res s' :
  scrape_category_try page_do urljoin url s = (Ret res, s') ->
  exists n raw1 raw2 s1,
    let first_batch := validate_and_clean_items raw1 in
    let second_batch := validate_and_clean_items raw2 in
    scrape_page1 page_do urljoin url s = (Ret (n, first_batch), s1) /\
    scrape_page2 page_do urljoin first_batch s1 = (Ret second_batch, s') /\
    res = category_result url n first_batch second_batch.
Proof.
  intros H. apply scrape_category_try_Ret in H as (n & b1 & b2 & s1 & H1 & H2 & ->).
  destruct (scrape_page1_validated _ _ _ _ _ _ _ H1) as (raw1 & ->).
  destruct (scrape_page2_validated _ _ _ _ _ _ H2) as (raw2 & ->).
  by exists n, raw1, raw2, s1.
Qed.

(** X7.  For every browser and category the result of [scrape_category]
    names the category's URL, and its items are well formed, have the
    five keys and pairwise distinct links. *)
Theorem scrape_category_items_well_formed (c : category) (s : state W) :
  exists res s',
    scrape_category page_do urljoin c s = (Ret res, s') /\
    category_link res = cat_url c /\
    Forall (fun it => well_formed it = true /\ dom it = five_fields)
      (category_items res) /\
    NoDup (link_of <$> category_items res).
Proof.
  rewrite scrape_category_run.
  destruct (scrape_category_try _ _ _ s) as [[res|e] s'] eqn:Htry.
  2:{ eexists _, s'. split; [reflexivity|]. cbn.
      split; [done|]. split; constructor. }
  exists res, s'. split; [done|].
  apply scrape_category_try_batches in Htry
    as (n & raw1 & raw2 & s1 & _ & _ & ->).
  cbn [category_result category_link category_items]. split; [done|].
  rewrite merged_batches_by_link. split.
  - apply Forall_take, Forall_forall. intros it Hit.
    apply unique_by_link_subset in Hit.
    revert it Hit. apply Forall_forall, Forall_app.
    split; apply validated_well_formed.
  - rewrite fmap_take.
    eapply sublist_NoDup; [apply unique_by_link_NoDup|apply sublist_take].
Qed.

(** X8.  When the [try] block of [scrape_category] returns, the items
    of the result are the batch of page 1 as it is, followed by the
    items of page 2 whose link is not on page 1, cut after 100: page 2
    never displaces an item of page 1.  When the block raises, the
    result is the one of lines 761-771. *)
Theorem scrape_category_keeps_page1 (c : category) (s : state W) :
  match scrape_category_try page_do urljoin (cat_url c) s with
  | (Ret res, s') =>
      exists n first_batch second_batch s1,
        scrape_page1 page_do urljoin (cat_url c) s
          = (Ret (n, first_batch), s1) /\
        scrape_page2 page_do urljoin first_batch s1 = (Ret second_batch, s') /\
        scrape_category page_do urljoin c s = (Ret res, s') /\
        category_items res
        = take 100
            (first_batch
             ++ filter (fun it => link_of it ∉ link_of <$> first_batch)
                  second_batch)
  | (Raise e, s') =>
      scrape_category page_do urljoin c s
        = (Ret (failed_result (cat_url c) e), s')
  end.
Proof.
  rewrite scrape_category_run.
  destruct (scrape_category_try _ _ _ s) as [[res|e] s'] eqn:Htry; [|done].
  apply scrape_category_try_batches in Htry
    as (n & raw1 & raw2 & s1 & H1 & H2 & ->).
  eexists n, _, _, s1. split; [exact H1|]. split; [exact H2|].
  split; [done|]. cbn [category_result category_items].
  by rewrite merged_batches.
Qed.

(** X9.  The statistics of a result agree with each other:
    [total_before_dedup] is the sum of the two page counts,
    [final_unique_items] lies between the page-1 count (100 at most)
    and the total (100 at most), page 2 has items only when page 1 had
    at least 15, and the result has an error exactly when it has no
    initial container count, in which case the counts are 0. *)
Theorem scrape_category_stats (c : category) (s : state W) :
  exists res s',
    scrape_category page_do urljoin c s = (Ret res, s') /\
    let st := extraction_stats res in
    total_before_dedup st = page1_items st + page2_items st /\
    min 100 (page1_items st) <= final_unique_items st /\
    final_unique_items st <= min 100 (total_before_dedup st) /\
    (0 < page2_items st -> 15 <= page1_items st) /\
    (error st = None <-> is_Some (initial_asin_count st)) /\
    (error st <> None -> total_before_dedup st = 0).
Proof.
  rewrite scrape_category_run.
  destruct (scrape_category_try _ _ _ s) as [[res|e] s'] eqn:Htry.
  2:{ eexists _, s'. split; [reflexivity|]. cbn.
      split; [done|]. split; [lia|]. split; [lia|]. split; [lia|].
      split; [|done]. split; [done|]. by intros [? ?]. }
  exists res, s'. split; [done|].
  apply scrape_category_try_batches in Htry
    as (n & raw1 & raw2 & s1 & _ & H2 & ->).
  cbv zeta.
  cbn [category_result extraction_stats total_before_dedup page1_items
       page2_items final_unique_items error initial_asin_count].
  rewrite merged_batches, !length_take, !length_app.
  split; [done|]. split; [lia|]. split.
  - pose proof (length_filter
      (fun it => link_of it ∉ link_of <$> validate_and_clean_items raw1)
      (validate_and_clean_items raw2)). lia.
  - split.
    + intros Hpos. apply scrape_page2_needs_15 in H2 as [H2|H2]; [|done].
      rewrite H2 in Hpos. simpl in Hpos. lia.
    + split; [|done]. split; [by eexists|done].
Qed.

End CategoryResults.

(** ** Pagination *)

Lemma startswith_refl (p : pystr) (s : pystr) : startswith p (p ++ s) = true.
Proof. induction p as [|c p IH]; [done|]. simpl. by rewrite N.eqb_refl. Qed.

Lemma contains_here (p s : pystr) : contains p (p ++ s) = true.
Proof. destruct (p ++ s) eqn:E; simpl; rewrite <- E, startswith_refl; done. Qed.

Lemma contains_cons (p : pystr) (c : N) (s : pystr) :
  contains p s = true -> contains p (c :: s) = true.
Proof. intros H. cbn [contains]. rewrite H. apply orb_true_r. Qed.

Lemma contains_app_r (p a b : pystr) :
  contains p b = true -> contains p (a ++ b) = true.
Proof.
  intros H. induction a as [|c a IH]; [done|]. by apply contains_cons.
Qed.

Lemma replace_from_changes (old new : pystr) (s : pystr) (n : nat) :
  replace_from old new n s = drop n s \/
  contains new (replace_from old new n s) = true.
Proof.
  revert n. induction s as [|c s IH]; intros n; [left; by destruct n|].
  destruct n as [|n]; cbn [replace_from].
  - destruct (startswith old (c :: s)).
    + right. apply contains_here.
    + destruct (IH 0) as [H|H].
      * left. by rewrite H.
      * right. by apply contains_cons.
  - apply IH.
Qed.

Lemma replace_changes (old new s : pystr) :
  replace old new s = s \/ contains new (replace old new s) = true.
Proof. apply (replace_from_changes old new s 0). Qed.

Section Navigation.

Context {W : Type} (page_do : forall o : op, W -> result (ret_of o) * W).

(** X10.  The URL tactic reads the current URL; when that read raises,
    so does the tactic, having done nothing else.  Otherwise it loads,
    with a timeout of 15 s, a URL that contains [pg=2] and differs from
    the current one: the current URL with [pg=1] replaced by [pg=2], or
    with [?pg=2] or [&pg=2] appended to it. *)
Theorem navigate_by_url_modification_run (s : state W) :
  match page_do Url (world s) with
  | (Ret current_url, w) =>
      exists new_url,
        navigate_by_url_modification page_do s
        = perform page_do (Goto new_url 15000)
            {| world := w;
               trace := trace s ++ [Called "navigate_by_url_modification";
                                    Did Url (Ret current_url)] |} /\
        contains (str_of "pg=2") new_url = true /\
        new_url <> current_url /\
        (new_url = replace (str_of "pg=1") (str_of "pg=2") current_url \/
         new_url = current_url ++ str_of "?pg=2" \/
         new_url = current_url ++ str_of "&pg=2")
  | (Raise e, w) =>
      navigate_by_url_modification page_do s
      = (Raise e,
         {| world := w;
            trace := trace s ++ [Called "navigate_by_url_modification";
                                 Did Url (Raise e)] |})
  end.
Proof.
  unfold navigate_by_url_modification. rewrite bind_called, bind_perform.
  cbn [world trace].
  destruct (page_do Url (world s)) as [[current_url|e] w];
    [|by rewrite <- app_assoc].
  cbn [ret_of] in current_url.
  assert (Happ : forall sep : pystr, length sep = 1 ->
    contains (str_of "pg=2") (current_url ++ sep ++ str_of "pg=2") = true /\
    current_url ++ sep ++ str_of "pg=2" <> current_url).
  { intros sep Hsep. split.
    - rewrite app_assoc. apply contains_app_r. reflexivity.
    - intros H. apply (f_equal length) in H. rewrite !length_app in H.
      simpl in H. lia. }
  assert (Hsep : forall b : bool,
    let sep := if b then str_of "&" else str_of "?" in
    length sep = 1 /\
    (current_url ++ sep ++ str_of "pg=2" = current_url ++ str_of "?pg=2" \/
     current_url ++ sep ++ str_of "pg=2" = current_url ++ str_of "&pg=2")).
  { intros []; cbv zeta; split; auto. }
  destruct (Hsep (contains (str_of "?") current_url)) as [Hlen Hor].
  cbv zeta in Hlen, Hor. destruct (Happ _ Hlen) as [Hc Hne].
  rewrite <- app_assoc. cbn [app].
  destruct (contains (str_of "pg=") current_url).
  - case_bool_decide as Heq.
    + eexists. split; [reflexivity|]. split; [exact Hc|]. split; [exact Hne|].
      right. exact Hor.
    + eexists. split; [reflexivity|].
      destruct (replace_changes (str_of "pg=1") (str_of "pg=2") current_url)
        as [H|H]; [done|].
      split; [exact H|]. split; [exact Heq|]. by left.
  - eexists. split; [reflexivity|]. split; [exact Hc|]. split; [exact Hne|].
    right. exact Hor.
Qed.

End Navigation.

Section NextPage.

Context {W : Type} (page_do : forall o : op, W -> result (ret_of o) * W).

Lemma navigate_by_url_modification_starts :
  starts 5 (navigate_by_url_modification page_do).
Proof.
  intros s. unfold navigate_by_url_modification.
  rewrite bind_called, bind_perform. cbn [world trace].
  destruct (page_do Url (world s)) as [[current_url|e] w].
  - rewrite perform_run. cbn [snd trace]. rewrite <- !app_assoc.
    eexists. split; [reflexivity|]. reflexivity.
  - cbn [snd trace]. rewrite <- !app_assoc.
    eexists. split; [reflexivity|]. reflexivity.
Qed.

Lemma navigation_strategies_start :
  Forall2 starts [1; 2; 3; 4; 5] (navigation_strategies page_do).
Proof.
  unfold navigation_strategies.
  constructor; [|constructor; [|constructor; [|constructor;
    [|constructor; [|constructor]]]]].
  5: apply navigate_by_url_modification_starts.
  all: intros s; rewrite perform_run; eexists; split; reflexivity.
Qed.

(** Lines 568-581 after a strategy returned: every operation may raise;
    [True] only right after a confirmation. *)
Lemma verification_run (strategy : M W unit) (s : state W) (s0 : state W) :
  strategy s = (Ret tt, s0) ->
  exists d1,
    trace (snd (navigation_turn page_do strategy s)) = trace s0 ++ d1 /\
    omap strategy_started d1 = [] /\
    (fst (navigation_turn page_do strategy s) = Ret true ->
     exists e, last d1 = Some e /\ confirms_page2 e = true).
Proof.
  intros Hs. unfold navigation_turn.
  rewrite (bind_Ret _ _ _ _ _ Hs), bind_perform.
  destruct (page_do (WaitForLoadState DomContentLoaded 10000) (world s0))
    as [[[]|e] w1]; [|by eexists].
  rewrite bind_perform. cbn [world trace].
  destruct (page_do Url w1) as [[current_url|e] w2].
  2:{ cbn [fst snd trace]. rewrite <- app_assoc. by eexists. }
  cbn [ret_of] in current_url.
  destruct (contains (str_of "pg=2") current_url
            || contains (str_of "page=2") current_url) eqn:Hurl.
  { cbn [ret fst snd trace]. rewrite <- app_assoc. eexists.
    split; [reflexivity|]. split; [reflexivity|]. intros _.
    eexists. split; [reflexivity|]. exact Hurl. }
  rewrite bind_perform. cbn [world trace].
  destruct (page_do (WaitForTimeout 2000) w2) as [[[]|e] w3].
  2:{ cbn [fst snd trace]. rewrite <- !app_assoc. by eexists. }
  rewrite bind_perform. cbn [world trace].
  destruct (page_do (Count (Locator AsinContainers)) w3)
    as [[new_containers|e] w4].
  2:{ cbn [fst snd trace]. rewrite <- !app_assoc. by eexists. }
  cbn [ret_of] in new_containers.
  cbn [ret fst snd trace]. rewrite <- !app_assoc. eexists.
  split; [reflexivity|]. split; [reflexivity|]. intros [= Hn].
  eexists. split; [reflexivity|]. exact Hn.
Qed.

(** One turn of the loop of lines 562-585: it never raises, and breaks
    out with [True] only right after a confirmation. *)
Lemma navigation_try_run (n : nat) (strategy : M W unit) (s : state W) :
  starts n strategy ->
  exists f s' d,
    try_except (ok <- navigation_turn page_do strategy;;
                if ok then ret (Break true) else ret (Next false))
      (fun _ => ret (Next false)) s = (Ret f, s') /\
    trace s' = trace s ++ d /\ omap strategy_started d = [n] /\
    (f = Next false \/
     f = Break true /\ exists e, last d = Some e /\ confirms_page2 e = true).
Proof.
  intros Hstart. destruct (Hstart s) as (d0 & Hd0 & Hn).
  unfold try_except, bind at 1.
  destruct (strategy s) as [[[]|e0] s0] eqn:Hs; cbn [snd] in Hd0.
  2:{ assert (Hturn : navigation_turn page_do strategy s = (Raise e0, s0)).
      { unfold navigation_turn. by rewrite (bind_Raise _ _ _ _ _ Hs). }
      rewrite Hturn. cbn [ret]. exists (Next false), s0, d0. auto. }
  destruct (verification_run strategy s s0 Hs) as (d1 & Hd1 & Hq & Hok).
  destruct (navigation_turn page_do strategy s) as [[[]|e] s1];
    cbn [fst snd ret] in *.
  - exists (Break true), s1, (d0 ++ d1).
    split; [done|]. split; [by rewrite Hd1, Hd0, app_assoc|].
    split; [by rewrite omap_app, Hn, Hq|]. right. split; [done|].
    destruct (Hok eq_refl) as (e & Hl & Hc). exists e. split; [|done].
    by rewrite last_app, Hl.
  - exists (Next false), s1, (d0 ++ d1).
    split; [done|]. split; [by rewrite Hd1, Hd0, app_assoc|].
    split; [by rewrite omap_app, Hn, Hq|]. by left.
  - exists (Next false), s1, (d0 ++ d1).
    split; [done|]. split; [by rewrite Hd1, Hd0, app_assoc|].
    split; [by rewrite omap_app, Hn, Hq|]. by left.
Qed.

Lemma navigation_loop_run (ns : list nat) (strategies : list (M W unit)) :
  Forall2 starts ns strategies ->
  forall s : state W, exists ok s' d k,
    for_each strategies
      (fun strategy (_ : bool) =>
         try_except (ok <- navigation_turn page_do strategy;;
                     if ok then ret (Break true) else ret (Next false))
           (fun _ => ret (Next false)))
      false s = (Ret ok, s') /\
    trace s' = trace s ++ d /\
    omap strategy_started d = take k ns /\ k <= length ns /\
    (if ok then 0 < k /\ exists e, last d = Some e /\ confirms_page2 e = true
     else k = length ns).
Proof.
  induction 1 as [|n strategy ns strategies Hstart _ IH]; intros s.
  { exists false, s, [], 0. cbn. by rewrite app_nil_r. }
  cbn [for_each].
  destruct (navigation_try_run n strategy s Hstart)
    as (f & s1 & d1 & Hrun & Hd1 & Hn & Hf).
  rewrite (bind_Ret _ _ _ _ _ Hrun).
  destruct Hf as [->|[-> Hconf]].
  - destruct (IH s1) as (ok & s' & d & k & Hloop & Hd & Hk & Hle & Hok).
    exists ok, s', (d1 ++ d), (S k). split; [done|].
    split; [by rewrite Hd, Hd1, app_assoc|].
    split; [by rewrite omap_app, Hn, Hk|]. split; [simpl; lia|].
    destruct ok.
    + destruct Hok as (_ & e & Hl & Hc). split; [lia|]. exists e.
      split; [|done]. by rewrite last_app, Hl.
    + simpl. lia.
  - exists true, s1, d1, 1. split; [done|]. split; [done|].
    split; [by rewrite Hn|]. split; [simpl; lia|]. split; [lia|done].
Qed.

(** X11.  [navigate_to_next_page] never raises.  It tries the five
    strategies in the order of their list, each at most once, and no
    further one after a confirmation; it returns [True] only right
    after a confirmation (the URL read names page 2, or at least ten
    containers were counted), and [False] only after all five
    strategies were tried. *)
Theorem navigate_to_next_page_run (s : state W) :
  exists ok s' d k,
    navigate_to_next_page page_do s = (Ret ok, s') /\
    trace s' = trace s ++ Called "navigate_to_next_page" :: d /\
    omap strategy_started d = take k [1; 2; 3; 4; 5] /\ 1 <= k <= 5 /\
    (if ok then exists e, last d = Some e /\ confirms_page2 e = true
     else k = 5).
Proof.
  unfold navigate_to_next_page. rewrite bind_called.
  destruct (navigation_loop_run _ _ navigation_strategies_start
              {| world := world s;
                 trace := trace s ++ [Called "navigate_to_next_page"] |})
    as (ok & s' & d & k & Hloop & Hd & Hk & Hle & Hok).
  exists ok, s', d, k. split; [exact Hloop|].
  split; [by rewrite Hd; cbn [trace]; rewrite <- app_assoc|].
  split; [exact Hk|]. cbn [length] in Hle.
  destruct ok; [|cbn [length] in Hok; split; [lia|done]].
  destruct Hok as [Hpos Hconf]. split; [lia|done].
Qed.

End NextPage.

(** ** The two extractors *)

Lemma cleaned_clean_text (v : pyval) : cleaned (clean_text v) = true.
Proof. apply bool_decide_eq_true_2, clean_text_idempotent. Qed.

Lemma product_name_like_name (text : pystr) (href : pyval) :
  product_name_like text href = true ->
  name_like text = true /\ truthy href = true.
Proof.
  unfold product_name_like, name_like.
  intros [[[[_ Hlen]%andb_true_iff Hh]%andb_true_iff Hr]%andb_true_iff Hs]%andb_true_iff.
  by rewrite Hlen, Hr, Hs.
Qed.

Lemma candidate_product (rank name link rating price : pystr) :
  candidate five_fields (product rank name link rating price)
  = cleaned rank && cleaned name && name_like name
    && cleaned rating && cleaned price.
Proof.
  unfold candidate.
  assert (Hdom : dom (product rank name link rating price) = five_fields).
  { unfold product, five_fields. rewrite !dom_insert_L, dom_empty_L.
    set_solver. }
  rewrite (bool_decide_eq_true_2 _ Hdom). unfold product.
  by simplify_map_eq.
Qed.

Lemma candidate_with_asin (asin : pyval) (rank name link rating price : pystr) :
  candidate six_fields (<["asin" := asin]> (product rank name link rating price))
  = cleaned rank && cleaned name && name_like name
    && cleaned rating && cleaned price.
Proof.
  unfold candidate.
  assert (Hdom : dom (<["asin" := asin]> (product rank name link rating price))
                 = six_fields).
  { unfold product, six_fields, five_fields.
    rewrite !dom_insert_L, dom_empty_L. set_solver. }
  rewrite (bool_decide_eq_true_2 _ Hdom). unfold product.
  by simplify_map_eq.
Qed.

Lemma link_of_product (rank name link rating price : pystr) :
  link_of (product rank name link rating price) = Some link.
Proof. unfold link_of, get, product. by simplify_map_eq. Qed.

Lemma link_of_with_asin (asin : pyval) (it : item) :
  link_of (<["asin" := asin]> it) = link_of it.
Proof. unfold link_of, get. by rewrite lookup_insert_ne. Qed.

Section Extractors.

Context {W : Type} (page_do : forall o : op, W -> result (ret_of o) * W).
Context (urljoin : pystr -> pystr -> result pystr).

(** A loop whose turns run in a [try] and either leave the list as it
    is or append one element: it returns, whatever the turns do, with
    at most one element a turn. *)
Lemma for_each_try_append {X A} (P : A -> Prop)
  (turn : X -> list A -> M W (list A)) (xs : list X) :
  (forall x v s v' s', x ∈ xs -> turn x v s = (Ret v', s') ->
     v' = v \/ exists a, P a /\ v' = v ++ [a]) ->
  forall v s, exists added s',
    for_each xs
      (fun x v => try_except (v' <- turn x v;; ret (Next v'))
                    (fun _ => ret (Next v)))
      v s = (Ret (v ++ added), s') /\
    length added <= length xs /\ Forall P added.
Proof.
  induction xs as [|x xs IH]; intros Hturn v s.
  { exists [], s. rewrite app_nil_r. by split. }
  assert (Hrest : forall x0 v0 s0 v' s', x0 ∈ xs ->
            turn x0 v0 s0 = (Ret v', s') ->
            v' = v0 \/ exists a, P a /\ v' = v0 ++ [a]).
  { intros x0 v0 s0 v' s' Hin. apply Hturn. by right. }
  specialize (IH Hrest).
  cbn [for_each]. unfold bind at 1, try_except, bind at 1.
  destruct (turn x v s) as [[v'|e] s1] eqn:Hx; cbn [ret].
  - destruct (IH v' s1) as (added & s' & Hrun & Hlen & HP).
    destruct (Hturn _ _ _ _ _ (list_elem_of_here x xs) Hx)
      as [->|(a & Ha & ->)].
    + exists added, s'. split; [done|]. split; [simpl; lia|done].
    + exists (a :: added), s'. rewrite <- app_assoc in Hrun.
      split; [done|]. split; [simpl; lia|by constructor].
  - destruct (IH v s1) as (added & s' & Hrun & Hlen & HP).
    exists added, s'. split; [done|]. split; [simpl; lia|done].
Qed.

Lemma first_text_cleaned container sel read (s : state W) t s' :
  first_text page_do container sel read s = (Ret t, s') -> cleaned t = true.
Proof.
  unfold first_text. intros H.
  apply bind_Ret_inv in H as (n & s1 & _ & H).
  destruct (0 <? n); [|by injection H as <- _].
  apply bind_Ret_inv in H as (v & s2 & _ & H). injection H as <- _.
  apply cleaned_clean_text.
Qed.

Lemma nth_text_cleaned coll idx read (s : state W) t s' :
  nth_text page_do coll idx read s = (Ret t, s') -> cleaned t = true.
Proof.
  unfold nth_text. intros H.
  apply bind_Ret_inv in H as (n & s1 & _ & H).
  destruct (idx <? n); [|by injection H as <- _].
  apply bind_Ret_inv in H as (v & s2 & _ & H). injection H as <- _.
  apply cleaned_clean_text.
Qed.

(** The name and link that the loop of lines 365-381 leaves: none, or
    those of a link that passed the filter. *)
Lemma name_link_loop link_elements (js : list nat) (s : state W) v s' :
  for_each js (name_link_turn page_do urljoin link_elements) ([], []) s
    = (Ret v, s') ->
  v = ([], []) \/
  cleaned (fst v) = true /\ name_like (fst v) = true /\ joined urljoin (snd v).
Proof.
  apply (for_each_inv
           (fun v => v = ([], []) \/
              cleaned (fst v) = true /\ name_like (fst v) = true
              /\ joined urljoin (snd v))); [|by left].
  intros j v0 s0 f s1 Hv0 Hf. unfold name_link_turn in Hf.
  apply bind_Ret_inv in Hf as (text & s2 & _ & Hf).
  apply bind_Ret_inv in Hf as (href & s3 & _ & Hf).
  destruct (product_name_like _ href) eqn:Hlike;
    [|by injection Hf as <- _].
  apply bind_Ret_inv in Hf as (link & s4 & Hjoin & Hf).
  injection Hf as <- _. right. cbn [fst snd].
  apply product_name_like_name in Hlike as [Hname Hhref].
  split; [exact (cleaned_clean_text (Some text))|]. split; [done|].
  unfold lift in Hjoin. injection Hjoin as Hjoin _.
  destruct href as [[|c href]|]; [done| |done]. by exists (c :: href).
Qed.

Lemma container_turn_candidate asin_containers i items (s : state W) items' s' :
  container_turn page_do urljoin asin_containers i items s = (Ret items', s') ->
  items' = items \/
  exists it, (candidate six_fields it = true /\
              exists link, link_of it = Some link /\ link <> [] /\ joined urljoin link)
             /\ items' = items ++ [it].
Proof.
  unfold container_turn. intros H.
  apply bind_Ret_inv in H as (asin & ? & _ & H).
  apply bind_Ret_inv in H as (n & ? & _ & H).
  apply bind_Ret_inv in H as ([name link] & ? & Hv & H).
  apply bind_Ret_inv in H as (rank & ? & Hrank & H).
  apply bind_Ret_inv in H as (rating & ? & Hrating & H).
  apply bind_Ret_inv in H as (price & ? & Hprice & H).
  apply first_text_cleaned in Hrank, Hrating, Hprice.
  destruct (nonempty name && nonempty link && (15 <? length name)) eqn:Hok;
    injection H as <- _; [right|by left].
  apply andb_true_iff in Hok as [[Hn Hl]%andb_true_iff _].
  assert (Hnl : cleaned name = true /\ name_like name = true /\ joined urljoin link).
  { destruct (0 <? n).
    - apply bind_Ret_inv in Hv as (m & ? & _ & Hv).
      apply name_link_loop in Hv as [[= -> ->]|Hv];
        [discriminate Hn|exact Hv].
    - injection Hv as <- <- _. discriminate Hn. }
  destruct Hnl as (Hc & Hlike & Hj).
  eexists. split; [|reflexivity]. split.
  - by rewrite candidate_with_asin, Hrank, Hc, Hlike, Hrating, Hprice.
  - exists link. rewrite link_of_with_asin, link_of_product.
    split; [done|]. split; [by destruct link|done].
Qed.

(** X12.  The container extractor raises only when its first count of
    the containers raises, and then it has done nothing else.
    Otherwise it returns, whatever the other operations do: at most
    one candidate for each of the first 100 containers, each with the
    five fields and an asin, cleaned texts, a name that passed the
    filter of lines 372-378 and a non-empty link that [urljoin] made
    of a non-empty [href]. *)
Theorem extract_from_asin_containers_universal_run asin_containers
  (s : state W) :
  match page_do (Count asin_containers) (world s) with
  | (Ret container_count, _) =>
      exists items s',
        extract_from_asin_containers_universal page_do urljoin
          asin_containers s = (Ret items, s') /\
        length items <= min container_count 100 /\
        Forall (fun it => candidate six_fields it = true /\
                  exists link, link_of it = Some link /\ link <> []
                               /\ joined urljoin link) items
  | (Raise e, w) =>
      extract_from_asin_containers_universal page_do urljoin asin_containers s
      = (Raise e,
         {| world := w;
            trace := trace s ++ [Did (Count asin_containers) (Raise e)] |})
  end.
Proof.
  unfold extract_from_asin_containers_universal. rewrite bind_perform.
  destruct (page_do (Count asin_containers) (world s))
    as [[container_count|e] w]; [|done].
  cbn [ret_of] in container_count.
  match goal with
  | |- context [for_each ?xs _ [] ?s0] =>
      destruct (for_each_try_append _ _ xs
                  (fun x v s1 v' s2 _ =>
                     container_turn_candidate asin_containers x v s1 v' s2)
                  [] s0)
        as (added & s' & Hrun & Hlen & Hall)
  end.
  exists added, s'. split; [exact Hrun|].
  rewrite length_seq in Hlen. split; [exact Hlen|exact Hall].
Qed.

Lemma valid_link_turn_entry product_links i valid (s : state W) valid' s' :
  valid_link_turn page_do urljoin product_links i valid s = (Ret valid', s') ->
  valid' = valid \/
  exists pl, (cleaned (pl_name pl) = true /\ name_like (pl_name pl) = true /\
              exists href, contains (str_of "/dp/") href = true /\
                           urljoin BASE_URL href = Ret (pl_link pl))
             /\ valid' = valid ++ [pl].
Proof.
  unfold valid_link_turn. intros H.
  apply bind_Ret_inv in H as (t & ? & _ & H).
  apply bind_Ret_inv in H as (href & ? & _ & H).
  destruct (product_name_like _ href && _) eqn:Hok;
    [|injection H as <- _; by left].
  apply andb_true_iff in Hok as [Hlike Hdp].
  apply bind_Ret_inv in H as (link & ? & Hjoin & H). injection H as <- _.
  right. eexists. split; [|reflexivity]. cbn [pl_name pl_link].
  apply product_name_like_name in Hlike as [Hname _].
  split; [exact (cleaned_clean_text (Some t))|]. split; [done|].
  unfold lift in Hjoin. injection Hjoin as Hjoin _.
  by exists (default [] href).
Qed.

Lemma fallback_turn_item idx pl items (s : state W) items' s' :
  fallback_turn page_do idx pl items s = (Ret items', s') ->
  exists rank rating price,
    cleaned rank = true /\ cleaned rating = true /\ cleaned price = true /\
    items' = items ++ [product rank (pl_name pl) (pl_link pl) rating price].
Proof.
  unfold fallback_turn. intros H.
  apply bind_Ret_inv in H as (rank & ? & Hrank & H).
  apply bind_Ret_inv in H as (price & ? & Hprice & H).
  apply bind_Ret_inv in H as (rating & ? & Hrating & H).
  injection H as <- _.
  apply nth_text_cleaned in Hrank, Hrating, Hprice.
  by exists rank, rating, price.
Qed.

Lemma enumerate_length {X} (start : nat) (xs : list X) :
  length (enumerate start xs) = length xs.
Proof.
  revert start. induction xs as [|x xs IH]; intros start; [done|].
  cbn. by rewrite IH.
Qed.

Lemma enumerate_snd {X} (start : nat) (xs : list X) (p : nat * X) :
  p ∈ enumerate start xs -> snd p ∈ xs.
Proof.
  revert start. induction xs as [|x xs IH]; intros start; cbn.
  - by intros ?%elem_of_nil.
  - intros [->|Hin]%elem_of_cons; [by left|]. right. by eapply IH.
Qed.

(** X13.  The fallback extractor raises only when its count of the
    product links raises.  Otherwise it returns at most 50 candidates,
    and no more than there are links: each with the five fields and no
    asin, cleaned texts, a name that passed the filter, and a link that
    [urljoin] made of an [href] containing [/dp/]. *)
Theorem extract_using_universal_selectors_run (s : state W) :
  match page_do (Count (Locator ProductLinks)) (world s) with
  | (Ret link_count, _) =>
      exists items s',
        extract_using_universal_selectors page_do urljoin s
          = (Ret items, s') /\
        length items <= min link_count 50 /\
        Forall (fun it => candidate five_fields it = true /\
                  exists link href,
                    link_of it = Some link /\
                    contains (str_of "/dp/") href = true /\
                    urljoin BASE_URL href = Ret link) items
  | (Raise e, w) =>
      extract_using_universal_selectors page_do urljoin s
      = (Raise e,
         {| world := w;
            trace := trace s ++ [Called "extract_using_universal_selectors";
                                 Did (Count (Locator ProductLinks)) (Raise e)] |})
  end.
Proof.
  unfold extract_using_universal_selectors.
  rewrite bind_called, bind_perform. cbn [world trace].
  destruct (page_do (Count (Locator ProductLinks)) (world s))
    as [[link_count|e] w]; [|by rewrite <- app_assoc].
  cbn [ret_of] in link_count.
  match goal with
  | |- context [bind (for_each ?xs _ []) _ ?s0] =>
      destruct (for_each_try_append _ _ xs
                  (fun x v s1 v' s2 _ =>
                     valid_link_turn_entry (Locator ProductLinks) x v s1 v' s2)
                  [] s0)
        as (valid & s1 & Hrun & Hlen & Hvalid)
  end.
  rewrite (bind_Ret _ _ _ _ _ Hrun). cbn [app].
  rewrite length_seq in Hlen.
  assert (Hturn : forall (p : nat * product_link) v (s2 : state W) v' s3,
    p ∈ enumerate 0 (take 50 valid) ->
    fallback_turn page_do (fst p) (snd p) v s2 = (Ret v', s3) ->
    v' = v \/
    exists it, (candidate five_fields it = true /\
                exists link href,
                  link_of it = Some link /\
                  contains (str_of "/dp/") href = true /\
                  urljoin BASE_URL href = Ret link) /\ v' = v ++ [it]).
  { intros p v s2 v' s3 Hp Hturn. right.
    apply enumerate_snd in Hp. apply (subseteq_take 50) in Hp.
    rewrite Forall_forall in Hvalid.
    destruct (Hvalid _ Hp) as (Hc & Hlike & href & Hdp & Hjoin).
    apply fallback_turn_item in Hturn
      as (rank & rating & price & Hrank & Hrating & Hprice & ->).
    eexists. split; [|reflexivity]. split.
    - by rewrite candidate_product, Hrank, Hc, Hlike, Hrating, Hprice.
    - exists (pl_link (snd p)), href. by rewrite link_of_product. }
  destruct (for_each_try_append _ _ _ Hturn [] s1)
    as (items & s' & Hrun2 & Hlen2 & Hitems).
  exists items, s'. split; [exact Hrun2|]. split; [|exact Hitems].
  rewrite enumerate_length, length_take in Hlen2. lia.
Qed.

End Extractors.

(** X14.  Validation leaves a candidate of the extractors as it is but
    for the rank and the two truncations, and drops it exactly when
    its link does not contain [/dp/]: never for its name. *)
Theorem candidate_validation (fields : gset string) (it : item) :
  candidate fields it = true ->
  exists rank name link rating price,
    it !! "rank" = Some (Some rank) /\ it !! "name" = Some (Some name) /\
    it !! "link" = Some (Some link) /\ it !! "rating" = Some (Some rating) /\
    it !! "price" = Some (Some price) /\
    validate_one it
    = if contains (str_of "/dp/") link
      then Some (product (clean_rank (Some rank)) (take 500 name) link
                   (take 100 rating) price)
      else None.
Proof.
  unfold candidate. intros [_ H]%andb_true_iff.
  destruct (it !! "rank") as [[rank|]|] eqn:Erank; try done.
  destruct (it !! "name") as [[name|]|] eqn:Ename; try done.
  destruct (it !! "link") as [[link|]|] eqn:Elink; try done.
  destruct (it !! "rating") as [[rating|]|] eqn:Erating; try done.
  destruct (it !! "price") as [[price|]|] eqn:Eprice; try done.
  apply andb_true_iff in H as [[[[Hrank Hname]%andb_true_iff Hlike]%andb_true_iff
                                  Hrating]%andb_true_iff Hprice].
  exists rank, name, link, rating, price. repeat (split; [done|]).
  apply bool_decide_eq_true in Hname, Hrating, Hprice.
  unfold name_like in Hlike.
  apply andb_true_iff in Hlike as [[Hlen _]%andb_true_iff _].
  apply Nat.ltb_lt in Hlen.
  unfold validate_one, get. rewrite Ename, Elink. cbn [from_option id].
  assert (Hn : truthy (Some name) = true) by (destruct name; [simpl in Hlen; lia|done]).
  rewrite Hn. cbn [negb orb].
  destruct link as [|c link].
  { reflexivity. }
  cbn [truthy negb]. cbv zeta.
  rewrite validated_item_product. unfold get_or_empty.
  rewrite Erank, Ename, Elink, Erating, Eprice. cbn [from_option id].
  rewrite clean_product_name_take, clean_rating_take, clean_price_text.
  rewrite Hname, Hrating, Hprice.
  unfold product at 1 2 3. rewrite !lookup_insert_ne by done.
  rewrite lookup_insert_eq. cbn [from_option id].
  rewrite lookup_insert_ne by done. rewrite lookup_insert_ne by done.
  rewrite lookup_insert_eq. cbn [from_option id].
  unfold validate_product_link.
  destruct (contains (str_of "/dp/") (c :: link)) eqn:Hdp.
  - cbn [truthy andb].
    assert (Hlt : 10 < length (take 500 name)) by (rewrite length_take; lia).
    destruct (take 500 name) as [|a t]; [simpl in Hlt; lia|].
    cbn [andb]. by rewrite (proj2 (Nat.ltb_lt _ _) Hlt).
  - cbn [truthy andb]. by rewrite andb_false_r.
Qed.

(** X14 at work: the first twin is a candidate, with its asin, and
    validation keeps it. *)
Lemma twin_a_validated :
  exists rank name link rating price,
    twin_a !! "rank" = Some (Some rank) /\ twin_a !! "name" = Some (Some name) /\
    twin_a !! "link" = Some (Some link) /\
    twin_a !! "rating" = Some (Some rating) /\
    twin_a !! "price" = Some (Some price) /\
    validate_one twin_a
    = if contains (str_of "/dp/") link
      then Some (product (clean_rank (Some rank)) (take 500 name) link
                   (take 100 rating) price)
      else None.
Proof. apply (candidate_validation six_fields twin_a). by_evaluation. Defined.

(** ** Where an error comes from *)

Lemma aborts_ret {W A} P (a : A) : aborts_by P (@ret W A a).
Proof.
  intros s. exists []. split; [by rewrite app_nil_r|]. intros e He.
  discriminate He.
Qed.

Lemma aborts_called {W} P f : aborts_by P (@called W f).
Proof.
  intros s. exists [Called f]. split; [reflexivity|]. intros e He.
  discriminate He.
Qed.

Lemma aborts_bind {W A B} P (m : M W A) (k : A -> M W B) :
  aborts_by P m -> (forall a, aborts_by P (k a)) -> aborts_by P (bind m k).
Proof.
  intros Hm Hk s. unfold bind. destruct (Hm s) as (d1 & H1 & F1).
  destruct (m s) as [[a|e] s1]; simpl in *.
  2:{ exists d1. split; [done|]. intros e' [= <-]. by apply F1. }
  destruct (Hk a s1) as (d2 & H2 & F2). exists (d1 ++ d2).
  split; [by rewrite H2, H1, app_assoc|]. intros e He.
  destruct (F2 e He) as (o & Hl & Ho). exists o. split; [|done].
  by rewrite last_app, Hl.
Qed.

(** A [try] whose body only adds to the trace aborts as its handler
    does. *)
Lemma aborts_guarded {W A} P (m : M W A) (h : pystr -> M W A) :
  emits (fun _ => true) m -> (forall e, aborts_by P (h e)) ->
  aborts_by P (try_except m h).
Proof.
  intros Hm Hh s. unfold try_except. destruct (Hm s) as (d1 & H1 & _).
  destruct (m s) as [[a|e] s1]; simpl in *; [by exists d1|].
  destruct (Hh e s1) as (d2 & H2 & F2). exists (d1 ++ d2).
  split; [by rewrite H2, H1, app_assoc|]. intros e' He.
  destruct (F2 e' He) as (o & Hl & Ho). exists o. split; [|done].
  by rewrite last_app, Hl.
Qed.

Lemma aborts_for_each {W X S} P (xs : list X) (body : X -> S -> M W (flow S)) :
  (forall x v, aborts_by P (body x v)) ->
  forall v, aborts_by P (for_each xs body v).
Proof.
  intros Hb. induction xs as [|x xs IH]; intros v; simpl.
  - apply aborts_ret.
  - apply aborts_bind; [apply Hb|]. intros [v'|v']; [apply IH|apply aborts_ret].
Qed.

Section Aborts.

Context {W : Type} (page_do : forall o : op, W -> result (ret_of o) * W).
Context (urljoin : pystr -> pystr -> result pystr).

Lemma aborts_perform (P : op -> bool) (o : op) :
  P o = true -> aborts_by P (perform page_do o).
Proof.
  intros H s. rewrite perform_run. cbn [fst snd trace]. eexists.
  split; [reflexivity|]. intros e He. exists o. by rewrite He.
Qed.

End Aborts.

(** One step towards [aborts_by P m], by the shape of [m]. *)
Ltac aborts_step :=
  lazymatch goal with
  | |- aborts_by _ (ret _) => apply aborts_ret
  | |- aborts_by _ (called _) => apply aborts_called
  | |- @aborts_by ?W _ ?P (perform ?page_do ?o) =>
      change (@aborts_by W (ret_of o) P (perform page_do o));
      apply aborts_perform; reflexivity
  | |- aborts_by _ (bind _ _) => apply aborts_bind; [|intros]
  | |- aborts_by _ (try_except _ _) =>
      apply aborts_guarded; [solve [emits_auto]|intros]
  | |- aborts_by _ (for_each ?xs _ _) =>
      lazymatch xs with
      | context [navigation_strategies] =>
          unfold navigation_strategies; cbn [for_each]
      | _ :: _ => cbn [for_each]
      | _ => apply aborts_for_each; intros
      end
  | |- aborts_by _ (if ?b then _ else _) => destruct b
  | |- aborts_by _ (match ?x with _ => _ end) => destruct x
  | |- aborts_by _ _ => progress (autounfold with scraper; cbv beta)
  end.

Ltac aborts_auto := repeat aborts_step.

Section ErrorSource.

Context {W : Type} (page_do : forall o : op, W -> result (ret_of o) * W).
Context (urljoin : pystr -> pystr -> result pystr).

Lemma scrape_category_try_aborts url :
  aborts_by unguarded (scrape_category_try page_do urljoin url).
Proof. aborts_auto. Qed.

(** X15.  The error that a result of [scrape_category] reports is the
    exception of the page operation the run did last, and that
    operation is one of those no inner [try] guards: loading or
    reloading the category, a pause, the fallback wait for the DOM, a
    scroll, or a count of the containers or of the product links.  A
    click, a read of the URL, of a text or of an attribute never ends
    a category. *)
Theorem scrape_category_error_source (c : category) (s : state W) :
  exists res s' d,
    scrape_category page_do urljoin c s = (Ret res, s') /\
    trace s' = trace s ++ d /\
    forall e, error (extraction_stats res) = Some e ->
      category_items res = [] /\
      exists o, last d = Some (Did o (Raise e)) /\ unguarded o = true.
Proof.
  rewrite scrape_category_run.
  destruct (scrape_category_try_aborts (cat_url c) s) as (d & Hd & Hraise).
  destruct (scrape_category_try _ _ _ s) as [[res|e] s'] eqn:Htry;
    cbn [fst snd] in *.
  - exists res, s', d. split; [done|]. split; [done|]. intros e He.
    apply scrape_category_try_Ret in Htry as (n & b1 & b2 & s1 & _ & _ & ->).
    discriminate He.
  - eexists _, s', d. split; [reflexivity|]. split; [done|].
    intros e' [= <-]. split; [done|]. by apply Hraise.
Qed.

End ErrorSource.

(** ** The loop of [main] and the CSV file *)

Lemma dict_set_keys {V} (k : pystr) (v : V) (d : list (pystr * V)) :
  fst <$> dict_set k v d
  = if bool_decide (k ∈ fst <$> d) then fst <$> d else (fst <$> d) ++ [k].
Proof.
  induction d as [|[k' v'] d IH]; [done|]. cbn [dict_set fmap list_fmap fst].
  destruct (decide (k' = k)) as [->|Hk].
  - rewrite (bool_decide_eq_true_2 (k = k)) by done.
    rewrite bool_decide_eq_true_2 by by left. done.
  - rewrite (bool_decide_eq_false_2 (k' = k)) by done.
    cbn [fmap list_fmap fst]. rewrite IH.
    destruct (decide (k ∈ fst <$> d)) as [Hin|Hin].
    + rewrite (bool_decide_eq_true_2 (k ∈ fst <$> d)) by done.
      rewrite bool_decide_eq_true_2 by by right. done.
    + rewrite (bool_decide_eq_false_2 (k ∈ fst <$> d)) by done.
      rewrite bool_decide_eq_false_2; [done|].
      intros [?|?]%elem_of_cons; [by subst|done].
Qed.

Lemma items_held_set (k : pystr) (v : CategoryResult)
  (d : list (pystr * CategoryResult)) :
  items_held (dict_set k v d) <= items_held d + length (category_items v) /\
  (k ∉ fst <$> d ->
   items_held (dict_set k v d) = items_held d + length (category_items v)).
Proof.
  unfold items_held. induction d as [|[k' v'] d [IH1 IH2]].
  { cbn. split; [lia|intros _; lia]. }
  cbn [dict_set]. destruct (decide (k' = k)) as [->|Hk].
  - rewrite (bool_decide_eq_true_2 (k = k)) by done.
    cbn. split; [lia|]. intros Hn. exfalso. apply Hn. by left.
  - rewrite (bool_decide_eq_false_2 (k' = k)) by done.
    cbn [map sum_list snd fmap list_fmap fst] in *. split; [lia|].
    intros Hn. rewrite IH2; [lia|]. intros Hin. apply Hn. by right.
Qed.

Lemma csv_rows_length (d : list (pystr * CategoryResult)) :
  length (csv_rows d) = items_held d.
Proof.
  unfold csv_rows, items_held. induction d as [|entry d IH]; [done|].
  cbn [flat_map map sum_list]. by rewrite length_app, length_map, IH.
Qed.

(** [emits_auto] with the loops over a list that is written out
    unrolled. *)
Ltac emits_unrolled :=
  repeat lazymatch goal with
         | |- emits _ (for_each (_ :: _) _ _) => cbn [for_each]
         | |- emits _ (for_each [] _ _) => cbn [for_each]
         | |- _ => emits_step
         end.

Section MainRuns.

Context {W : Type} (page_do : forall o : op, W -> result (ret_of o) * W).
Context (urljoin : pystr -> pystr -> result pystr).

Lemma scrape_category_no_pause (c : category) :
  emits (fun e => negb (pause_failed e)) (scrape_category page_do urljoin c).
Proof. emits_unrolled. Qed.

Lemma not_pause_failed (d : list event) :
  forallb (fun e => negb (pause_failed e)) d = true ->
  length (filter pause_failed d) = 0.
Proof.
  induction d as [|e d IH]; [done|]. cbn [forallb].
  intros [He%negb_true_iff Hd]%andb_true_iff. rewrite filter_cons.
  destruct (decide (pause_failed e)) as [H|H]; [by rewrite He in H|auto].
Qed.

Lemma pause_failed_one (e : event) :
  length (filter pause_failed [e]) = if pause_failed e then 1 else 0.
Proof.
  rewrite filter_cons.
  destruct (decide (pause_failed e)) as [H|H]; destruct (pause_failed e); done.
Qed.

Lemma pause_failed_main (idx : nat)
  (r : result (ret_of (WaitForTimeout (1500 + Z.of_nat (idx mod 3) * 300)))) :
  pause_failed (Did (WaitForTimeout (1500 + Z.of_nat (idx mod 3) * 300)) r)
  = negb (is_ret r).
Proof.
  unfold pause_failed.
  pose proof (Nat.mod_upper_bound idx 3 ltac:(lia)) as Hlt.
  destruct (idx mod 3) as [|[|[|n]]]; [done|done|done|lia].
Qed.

(** One turn: the category is scraped, stored and counted, and the
    pause counts one more failure when it raises. *)
Lemma category_turn_run (idx : nat) (cat : category) (t : tally)
  (s : state W) :
  exists data s' d (b : bool),
    category_turn page_do urljoin idx cat t s
    = (Ret (if b then one_more_failure (record_category cat data t)
            else record_category cat data t), s') /\
    trace s' = trace s ++ d /\
    length (filter pause_failed d) = (if b then 1 else 0).
Proof.
  unfold category_turn.
  destruct (scrape_category_no_pause cat s) as (d1 & Hd1 & Hq).
  apply not_pause_failed in Hq.
  assert (Hret : exists data s1,
            scrape_category page_do urljoin cat s = (Ret data, s1)).
  { rewrite scrape_category_run.
    destruct (scrape_category_try _ _ _ s) as [[res|e] s1]; by eexists _, _. }
  destruct Hret as (data & s1 & Hrun). rewrite Hrun in Hd1. cbn [snd] in Hd1.
  unfold try_except at 1. rewrite (bind_Ret _ _ _ _ _ Hrun). cbv zeta.
  unfold try_except, bind, polite_pause. rewrite perform_run.
  destruct (page_do (WaitForTimeout _) (world s1)) as [[[]|e] w2];
    cbn [fst snd ret].
  - exists data, {| world := w2;
                    trace := trace s1 ++ [Did (WaitForTimeout
                      (1500 + Z.of_nat (idx mod 3) * 300)) (Ret tt)] |},
           (d1 ++ [Did (WaitForTimeout (1500 + Z.of_nat (idx mod 3) * 300))
                     (Ret tt)]), false.
    split; [done|]. cbn [trace]. split; [by rewrite Hd1, app_assoc|].
    by rewrite filter_app, length_app, Hq, pause_failed_one, pause_failed_main.
  - exists data, {| world := w2;
                    trace := trace s1 ++ [Did (WaitForTimeout
                      (1500 + Z.of_nat (idx mod 3) * 300)) (Raise e)] |},
           (d1 ++ [Did (WaitForTimeout (1500 + Z.of_nat (idx mod 3) * 300))
                     (Raise e)]), true.
    split; [done|]. cbn [trace]. split; [by rewrite Hd1, app_assoc|].
    by rewrite filter_app, length_app, Hq, pause_failed_one, pause_failed_main.
Qed.

End MainRuns.

(** The tally after a turn of the loop of [main]. *)
Lemma after_turn (b : bool) (cat : category) (data : CategoryResult)
  (t0 : tally) :
  let t1 := if b then one_more_failure (record_category cat data t0)
            else record_category cat data t0 in
  successful_categories t1 + failed_categories t1
  = successful_categories t0 + failed_categories t0 + 1 + (if b then 1 else 0) /\
  successful_categories t1 <= successful_categories t0 + 1 /\
  ((successful_categories t0 = 0 <-> total_items t0 = 0) ->
   (successful_categories t1 = 0 <-> total_items t1 = 0)) /\
  bestsellers t1 = dict_set (cat_name cat) data (bestsellers t0) /\
  total_items t1 = total_items t0 + length (category_items data).
Proof.
  cbv zeta. unfold one_more_failure, record_category. cbv zeta.
  destruct b;
    cbn [bestsellers total_items successful_categories failed_categories];
    destruct (0 <? length (category_items data)) eqn:Hn;
    (apply Nat.ltb_lt in Hn || apply Nat.ltb_ge in Hn);
    (split; [lia|]); (split; [lia|]);
    (split; [intros [H1 H2]; split; intros H; lia|]); split; reflexivity.
Qed.

Section MainLoop.

Context {W : Type} (page_do : forall o : op, W -> result (ret_of o) * W).
Context (urljoin : pystr -> pystr -> result pystr).

Lemma main_loop_from (categories : list category) :
  forall (start : nat) (t0 : tally) (s : state W),
  exists t s' d,
    for_each (enumerate start categories)
      (fun p t => t' <- category_turn page_do urljoin (fst p) (snd p) t;;
                  ret (Next t'))
      t0 s = (Ret t, s') /\
    trace s' = trace s ++ d /\
    successful_categories t + failed_categories t
    = successful_categories t0 + failed_categories t0 + length categories
      + length (filter pause_failed d) /\
    successful_categories t <= successful_categories t0 + length categories /\
    ((successful_categories t0 = 0 <-> total_items t0 = 0) ->
     (successful_categories t = 0 <-> total_items t = 0)) /\
    (NoDup (fst <$> bestsellers t0) -> NoDup (fst <$> bestsellers t)) /\
    (forall k, k ∈ fst <$> bestsellers t <->
               k ∈ fst <$> bestsellers t0 \/ k ∈ cat_name <$> categories) /\
    items_held (bestsellers t) + total_items t0
    <= total_items t + items_held (bestsellers t0) /\
    (NoDup (cat_name <$> categories) ->
     (forall k, k ∈ cat_name <$> categories -> k ∉ fst <$> bestsellers t0) ->
     fst <$> bestsellers t
     = (fst <$> bestsellers t0) ++ (cat_name <$> categories) /\
     items_held (bestsellers t) + total_items t0
     = total_items t + items_held (bestsellers t0)).
Proof.
  induction categories as [|cat categories IH]; intros start t0 s.
  { exists t0, s, []. cbn. rewrite !app_nil_r.
    split; [done|]. split; [done|]. split; [lia|]. split; [lia|].
    split; [done|]. split; [done|]. split.
    - intros k. split; [by left|]. intros [?|?%elem_of_nil]; done.
    - split; [lia|]. intros _ _. split; [done|lia]. }
  cbn [enumerate for_each fst snd].
  destruct (category_turn_run page_do urljoin start cat t0 s)
    as (data & s1 & d1 & b & Hturn & Hd1 & Hp1).
  rewrite bind_assoc, (bind_Ret _ _ _ _ _ Hturn). cbn [bind ret].
  destruct (after_turn b cat data t0) as (Hsum1 & Hsucc1 & Hzero1 & Hdict1 & Htot1).
  cbv zeta in Hsum1, Hsucc1, Hzero1, Hdict1, Htot1.
  set (t1 := if b then one_more_failure (record_category cat data t0)
             else record_category cat data t0) in *.
  destruct (IH (S start) t1 s1)
    as (t & s' & d & Hloop & Hd & Hsum & Hsucc & Hzero & Hnd & Hkeys & Hheld
        & Hfresh).
  pose proof (dict_set_keys (cat_name cat) data (bestsellers t0)) as Hk1.
  rewrite <- Hdict1 in Hk1.
  destruct (items_held_set (cat_name cat) data (bestsellers t0))
    as [Hle1 Heq1]. rewrite <- Hdict1 in Hle1, Heq1.
  exists t, s', (d1 ++ d). split; [exact Hloop|].
  split; [by rewrite Hd, Hd1, app_assoc|].
  split; [rewrite filter_app, length_app; cbn [length]; destruct b; lia|].
  split; [cbn [length]; lia|]. split; [tauto|].
  cbn [fmap list_fmap].
  split; [|split; [|split]].
  - intros Hnd0. apply Hnd. rewrite Hk1. case_bool_decide as Hin; [done|].
    apply NoDup_app. split; [done|]. split; [|apply NoDup_singleton].
    intros k Hk ->%list_elem_of_singleton. done.
  - intros k. rewrite Hkeys, Hk1, elem_of_cons.
    case_bool_decide as Hin.
    + clear - Hin. split; [tauto|]. intros [?|[->|?]]; tauto.
    + rewrite elem_of_app, list_elem_of_singleton. clear. tauto.
  - lia.
  - intros [Hc Hnd']%NoDup_cons Hdisj.
    assert (Hc0 : cat_name cat ∉ fst <$> bestsellers t0).
    { apply Hdisj. by left. }
    rewrite bool_decide_eq_false_2 in Hk1 by done.
    destruct Hfresh as [Hkt Hht]; [done| |].
    { intros k Hk. rewrite Hk1, elem_of_app, list_elem_of_singleton.
      intros [Hin| ->]; [|done]. revert Hin. apply Hdisj. by right. }
    split; [by rewrite Hkt, Hk1, <- app_assoc|].
    specialize (Heq1 Hc0). lia.
Qed.


(** X17.  [save_as_csv] writes one row for each item the dict holds, and
    no file exactly when it holds none.  After the loop of [main] over
    categories with pairwise distinct names, the rows are as many as
    the items counted, and there is no file exactly when no category
    was counted as successful. *)
Theorem save_as_csv_after_main (ts filename_prefix : pystr)
  (categories : list category) (s : state W) :
  (forall d : list (pystr * CategoryResult),
     length (csv_rows d) = items_held d /\
     match save_as_csv ts d filename_prefix with
     | Some (csv_filename, rows) =>
         rows = csv_rows d /\ 0 < items_held d /\
         csv_filename = filename_prefix ++ str_of "_" ++ ts ++ str_of ".csv"
     | None => items_held d = 0
     end) /\
  exists t s',
    main_loop page_do urljoin categories s = (Ret t, s') /\
    length (csv_rows (bestsellers t)) <= total_items t /\
    (NoDup (cat_name <$> categories) ->
     length (csv_rows (bestsellers t)) = total_items t /\
     (save_as_csv ts (bestsellers t) filename_prefix = None
      <-> successful_categories t = 0)).
Proof.
  assert (Hcsv : forall d : list (pystr * CategoryResult),
     length (csv_rows d) = items_held d /\
     match save_as_csv ts d filename_prefix with
     | Some (csv_filename, rows) =>
         rows = csv_rows d /\ 0 < items_held d /\
         csv_filename = filename_prefix ++ str_of "_" ++ ts ++ str_of ".csv"
     | None => items_held d = 0
     end).
  { intros d. split; [apply csv_rows_length|].
    unfold save_as_csv. cbv zeta. rewrite <- csv_rows_length.
    destruct (csv_rows d) as [|row rows]; [done|].
    split; [done|]. split; [simpl; lia|done]. }
  split; [exact Hcsv|].
  unfold main_loop.
  destruct (main_loop_from categories 1
              {| bestsellers := []; total_items := 0;
                 successful_categories := 0; failed_categories := 0 |} s)
    as (t & s' & d & Hloop & _ & _ & _ & Hzero & _ & _ & Hheld & Hfresh).
  cbn [bestsellers total_items successful_categories failed_categories
       fmap list_fmap] in *.
  assert (H0 : items_held [] = 0) by done. rewrite H0 in *.
  exists t, s'. split; [exact Hloop|].
  destruct (Hcsv (bestsellers t)) as [Hlen Hsave]. rewrite Hlen.
  split; [lia|]. intros Hnames.
  destruct (Hfresh Hnames) as [_ Hh].
  { intros k _. apply not_elem_of_nil. }
  split; [lia|]. specialize (Hzero ltac:(done)).
  destruct (save_as_csv ts (bestsellers t) filename_prefix) as [[f rows]|].
  - destruct Hsave as (_ & Hpos & _). split; [done|]. intros Hs. lia.
  - split; [|done]. intros _. lia.
Qed.

End MainLoop.
